(** * chatbot-gpt360: the Express gateway of [server/index.js]

    A shallow embedding of the in-memory session store, the weekly prompt
    counter and the five route handlers, followed by the properties of the
    design document that can be settled on that code.

    Conventions of the embedding.
    - A JavaScript [Date] is its epoch value in milliseconds, a [Z];
      subtracting two dates gives their difference in milliseconds.
    - [userSessions] is a [Map] from the session id to an array *object*.
      Arrays live in a store ([arrays]) and the map holds their index, so the
      reference that a handler keeps across its [await] is the very array
      that [push] and [splice] later mutate.
    - The [async] chat handler runs in two uninterrupted pieces, before and
      after its single [await]; other handlers may run in between.  The
      event loop is a transition function over the arrivals and the
      settlements of the outgoing calls.
    - What the environment decides (the clock, [uuidv4()], the request
      bodies, the outcome of the outgoing call) is carried by the event. *)

From stdpp Require Import gmap strings list fin_maps pretty.
From Stdlib Require Import ZArith Lia.

Local Open Scope Z_scope.

(** ** Data *)

Inductive Role := system | user | assistant.

Record Message := mkMessage { role : Role; content : string }.

#[global] Instance Role_eq_dec : EqDecision Role.
Proof. solve_decision. Defined.

#[global] Instance Message_eq_dec : EqDecision Message.
Proof. solve_decision. Defined.

(** [promptCounter]: the two data fields of the object literal. *)
Record PromptCounter := mkCounter { count : Z; weekStart : Z }.

(** An array is referred to by its position in the store. *)
Abbreviation ref := nat (only parsing).

Record Server := mkServer {
  userSessions : gmap string ref;
  arrays : list (list Message);
  promptCounter : PromptCounter;
  console : list string
}.

(** JSON bodies sent with [res.json]. *)
Inductive Body :=
| NewUserBody (userId message : string)
| HistoryBody (history : list Message)
| StatsBody (promptsUsed maxPrompts remaining weekStart : Z)
| ChatBody (response : string) (promptsRemaining : Z)
| ErrorBody (error : string) (code : option string)
| HealthBody (status : string) (timestamp promptsUsed maxPrompts : Z).

Record Response := mkResponse { status : Z; body : Body }.

(** [req.body] of [POST /api/chat], as [express.json()] leaves it: each
    field may be absent.  A present field is taken to be a string, the empty
    one being the falsy value; the handler only tests, looks up, stores and
    forwards these values. *)
Record ChatRequest := mkChatRequest {
  req_userId : option string;
  req_message : option string
}.

(** What the chat handler still holds when it is suspended at [await]. *)
Record Pending := mkPending {
  p_userId : string;
  p_message : string;
  p_conversation : ref
}.

(** The [axios.post] that is sent out ([temperature] is left out: it is a
    constant float and no handler reads it back). *)
Record Outbound := mkOutbound {
  url : string;
  model : string;
  messages : list Message;
  max_tokens : Z;
  authorization : string
}.

(** The error object seen by the [catch] block: [error.response] carries the
    upstream status and payload when the service answered, and is undefined
    for transport failures and for exceptions raised by the handler itself. *)
Record JsError := mkJsError {
  err_response : option (Z * string);
  err_message : string
}.

(** How the awaited call settles: with the text found at
    [data.choices[0].message.content], or by throwing. *)
Inductive Upstream :=
| Fulfilled (aiResponse : string)
| Thrown (error : JsError).

(** ** The weekly counter *)

Definition WEEK_MS : Z := 7 * 24 * 60 * 60 * 1000.

(** [resetWeekly()], with [now] the value of [new Date()].  The difference
    of two dates is a whole number of milliseconds and [weeksSince] is only
    compared with 1: the quotient is exactly 1 at [WEEK_MS], and is rounded
    monotonically, so [Math.floor] of the double quotient passes the test
    exactly when the floor division of [Z] does. *)
Definition resetWeekly (now : Z) (pc : PromptCounter) : PromptCounter :=
  let weeksSince := (now - weekStart pc) / WEEK_MS in
  if 1 <=? weeksSince then {| count := 0; weekStart := now |} else pc.

(** [parseInt(process.env.MAX_PROMPTS_PER_WEEK) || 4000]: [NaN] (here [None])
    and [0] are falsy. *)
Definition load_max_prompts (parsed : option Z) : Z :=
  match parsed with
  | Some n => if n =? 0 then 4000 else n
  | None => 4000
  end.

(** ** Store helpers *)

Definition deref (st : Server) (r : ref) : list Message :=
  default [] (arrays st !! r).

Definition with_counter (pc : PromptCounter) (st : Server) : Server :=
  {| userSessions := userSessions st; arrays := arrays st;
     promptCounter := pc; console := console st |}.

Definition with_console (c : list string) (st : Server) : Server :=
  {| userSessions := userSessions st; arrays := arrays st;
     promptCounter := promptCounter st; console := c |}.

(** The history limit: the literal [20] of the trimming code. *)
Definition MAX_HISTORY : nat := 20.

(** [if (conversation.length > 20) conversation.splice(0, conversation.length - 20)] *)
Definition trim (conversation : list Message) : list Message :=
  if (MAX_HISTORY <? length conversation)%nat
  then drop (length conversation - MAX_HISTORY) conversation
  else conversation.

Definition SYSTEM_PROMPT : Message :=
  {| role := system;
     content := "Tu es un assistant IA utile et bienveillant. Réponds de manière concise et professionnelle en français." |}.

(** [!v] for a field that is a string or absent. *)
Definition falsy (v : option string) : bool :=
  match v with
  | None => true
  | Some s => String.eqb s ""
  end.

Section Gateway.

(** The two module constants read from the environment. *)
Variable MAX_PROMPTS_PER_WEEK : Z.
Variable OPENAI_API_KEY : string.

(** ** Route handlers *)

(** [POST /api/user/new]; [uuid] is the value returned by [uuidv4()]. *)
Definition post_user_new (uuid : string) (st : Server) : Server * Response :=
  ({| userSessions := <[uuid := length (arrays st)]> (userSessions st);
      arrays := arrays st ++ [[]];
      promptCounter := promptCounter st;
      console := console st |},
   {| status := 200;
      body := NewUserBody uuid "Nouvelle session créée avec succès" |}).

Definition NOT_FOUND : Response :=
  {| status := 404; body := ErrorBody "Session utilisateur non trouvée" None |}.

(** [GET /api/user/:userId/history] *)
Definition get_history (userId : string) (st : Server) : Response :=
  match userSessions st !! userId with
  | None => NOT_FOUND
  | Some r => {| status := 200; body := HistoryBody (deref st r) |}
  end.

(** [GET /api/stats] *)
Definition get_stats (now : Z) (st : Server) : Server * Response :=
  let pc := resetWeekly now (promptCounter st) in
  (with_counter pc st,
   {| status := 200;
      body := StatsBody (count pc) MAX_PROMPTS_PER_WEEK
                (Z.max 0 (MAX_PROMPTS_PER_WEEK - count pc)) (weekStart pc) |}).

(** [GET /api/health] *)
Definition get_health (now : Z) (st : Server) : Response :=
  {| status := 200;
     body := HealthBody "OK" now (count (promptCounter st)) MAX_PROMPTS_PER_WEEK |}.

Definition BAD_REQUEST : Response :=
  {| status := 400; body := ErrorBody "userId et message sont requis" None |}.

(** The 429 of the weekly limit.  The quota is printed with all its decimal
    digits, which is how the template literal prints a number of magnitude
    below 1e21; beyond that the text sent differs, the status and the code do
    not. *)
Definition LIMIT_EXCEEDED : Response :=
  {| status := 429;
     body := ErrorBody
       ("Limite hebdomadaire de " +:+ pretty MAX_PROMPTS_PER_WEEK +:+
        " prompts atteinte. Réessayez la semaine prochaine.")
       (Some "WEEKLY_LIMIT_EXCEEDED") |}.

(** [POST /api/chat], from its entry to the [await]: either a response is
    sent at once, or the call goes out and the handler is suspended. *)
Definition chat_begin (req : ChatRequest) (now : Z) (st : Server)
  : Server * (Response + Pending * Outbound) :=
  if falsy (req_userId req) || falsy (req_message req) then (st, inl BAD_REQUEST)
  else
    let userId := default "" (req_userId req) in
    let message := default "" (req_message req) in
    match userSessions st !! userId with
    | None => (st, inl NOT_FOUND)
    | Some conversation =>
      let st := with_counter (resetWeekly now (promptCounter st)) st in
      if MAX_PROMPTS_PER_WEEK <=? count (promptCounter st)
      then (st, inl LIMIT_EXCEEDED)
      else
        (st, inr ({| p_userId := userId; p_message := message;
                     p_conversation := conversation |},
                  {| url := "https://api.openai.com/v1/chat/completions";
                     model := "gpt-4o-mini";
                     messages := SYSTEM_PROMPT :: deref st conversation
                                   ++ [ {| role := user; content := message |} ];
                     max_tokens := 1000;
                     authorization := "Bearer " +:+ OPENAI_API_KEY |}))
    end.

(** The [catch] block: one line on the console, then a status chosen from
    [error.response?.status]. *)
Definition chat_catch (error : JsError) (st : Server) : Server * Response :=
  let logged :=
    match err_response error with
    | Some (_, data) => if String.eqb data "" then err_message error else data
    | None => err_message error
    end in
  (with_console (console st ++ [logged]) st,
   match err_response error with
   | Some (code, _) =>
     if code =? 401 then
       {| status := 500; body := ErrorBody "Clé API OpenAI invalide" None |}
     else if code =? 429 then
       {| status := 429;
          body := ErrorBody "Limite de l'API OpenAI atteinte, réessayez plus tard" None |}
     else
       {| status := 500; body := ErrorBody "Erreur interne du serveur" None |}
   | None =>
     {| status := 500; body := ErrorBody "Erreur interne du serveur" None |}
   end).

(** [POST /api/chat], from the [await] to the end. *)
Definition chat_resume (p : Pending) (outcome : Upstream) (st : Server)
  : Server * Response :=
  match outcome with
  | Fulfilled aiResponse =>
    let conversation :=
      trim (deref st (p_conversation p)
              ++ [ {| role := user; content := p_message p |};
                   {| role := assistant; content := aiResponse |} ]) in
    let pc := {| count := count (promptCounter st) + 1;
                 weekStart := weekStart (promptCounter st) |} in
    ({| userSessions := <[p_userId p := p_conversation p]> (userSessions st);
        arrays := <[p_conversation p := conversation]> (arrays st);
        promptCounter := pc;
        console := console st |},
     {| status := 200;
        body := ChatBody aiResponse
                  (Z.max 0 (MAX_PROMPTS_PER_WEEK - count pc)) |})
  | Thrown error => chat_catch error st
  end.

(** ** The event loop *)

Record World := mkWorld {
  server : Server;
  inflight : list Pending
}.

Inductive Event :=
| NewUser (uuid : string)
| GetHistory (userId : string)
| GetStats (now : Z)
| GetHealth (now : Z)
| ChatArrives (req : ChatRequest) (now : Z)
| ChatSettles (i : nat) (outcome : Upstream).

Inductive Effect :=
| Respond (r : Response)
| Call (o : Outbound).

(** One turn of the loop.  [ChatSettles i] resumes the [i]-th suspended
    handler; an index that names no suspended handler is not an event of
    the program and leaves the world as it is. *)
Definition step (w : World) (e : Event) : World * list Effect :=
  match e with
  | NewUser uuid =>
    let '(st, r) := post_user_new uuid (server w) in
    ({| server := st; inflight := inflight w |}, [Respond r])
  | GetHistory userId => (w, [Respond (get_history userId (server w))])
  | GetStats now =>
    let '(st, r) := get_stats now (server w) in
    ({| server := st; inflight := inflight w |}, [Respond r])
  | GetHealth now => (w, [Respond (get_health now (server w))])
  | ChatArrives req now =>
    match chat_begin req now (server w) with
    | (st, inl r) => ({| server := st; inflight := inflight w |}, [Respond r])
    | (st, inr (p, o)) =>
      ({| server := st; inflight := inflight w ++ [p] |}, [Call o])
    end
  | ChatSettles i outcome =>
    match inflight w !! i with
    | None => (w, [])
    | Some p =>
      let '(st, r) := chat_resume p outcome (server w) in
      ({| server := st; inflight := delete i (inflight w) |}, [Respond r])
    end
  end.

Fixpoint run (w : World) (evs : list Event) : World * list Effect :=
  match evs with
  | [] => (w, [])
  | e :: evs =>
    let '(w1, out1) := step w e in
    let '(w2, out2) := run w1 evs in
    (w2, out1 ++ out2)
  end.

(** The process at start-up: no session, the counter at zero, the window
    opened at the start-up time. *)
Definition init (startup : Z) : World :=
  {| server := {| userSessions := ∅; arrays := [];
                  promptCounter := {| count := 0; weekStart := startup |};
                  console := [] |};
     inflight := [] |}.

End Gateway.


(** ** Observations *)

(** What the browser sees of a run: the responses, not the outgoing calls. *)
Definition visible (out : list Effect) : list Response :=
  omap (λ e, match e with Respond r => Some r | Call _ => None end) out.

(** What the inference service sees of a run. *)
Definition calls (out : list Effect) : list Outbound :=
  omap (λ e, match e with Call o => Some o | Respond _ => None end) out.

(** A well-formed chat request for a given session. *)
Definition chat (userId message : string) : ChatRequest :=
  {| req_userId := Some userId; req_message := Some message |}.

(** An upstream answer with an HTTP error status. *)
Definition http_error (code : Z) (data message : string) : Upstream :=
  Thrown {| err_response := Some (code, data); err_message := message |}.

(** Histories made of whole exchanges, oldest first. *)
Definition exchanges (pairs : list (string * string)) : list Message :=
  pairs ≫= λ ua, [ {| role := user; content := ua.1 |};
                   {| role := assistant; content := ua.2 |} ].

(** The store is well formed when every session and every suspended handler
    refers to an array of the store. *)
Definition store_ok (w : World) : Prop :=
  (∀ userId r, userSessions (server w) !! userId = Some r →
               (r < length (arrays (server w)))%nat) ∧
  Forall (λ p, (p_conversation p < length (arrays (server w)))%nat)
         (inflight w).

(** Every array of the store holds whole exchanges and at most
    [MAX_HISTORY] entries. *)
Definition histories_ok (w : World) : Prop :=
  Forall (λ h, (length h ≤ MAX_HISTORY)%nat ∧ ∃ pairs, h = exchanges pairs)
         (arrays (server w)).

(** Two events that differ at most in the payload and the message of an
    upstream 401. *)
Inductive same_but_401_payload : Event → Event → Prop :=
| same_event e : same_but_401_payload e e
| other_401_payload i data1 message1 data2 message2 :
    same_but_401_payload (ChatSettles i (http_error 401 data1 message1))
                         (ChatSettles i (http_error 401 data2 message2)).

(** Two worlds that differ at most in what was written on the console. *)
Definition same_but_console (w1 w2 : World) : Prop :=
  userSessions (server w1) = userSessions (server w2) ∧
  arrays (server w1) = arrays (server w2) ∧
  promptCounter (server w1) = promptCounter (server w2) ∧
  inflight w1 = inflight w2.

(** ** Scenarios *)

(** A process started at time 0 in which one session, ["u"], was created. *)
Definition one_session (MAX : Z) : World :=
  (run MAX "sk-test" (init 0) [NewUser "u"]).1.

(** The same process after one successful exchange at time 1. *)
Definition one_exchange (MAX : Z) : World :=
  (run MAX "sk-test" (one_session MAX)
     [ChatArrives (chat "u" "Bonjour") 1; ChatSettles 0 (Fulfilled "Salut")]).1.

(** ** Further vocabulary *)

(** The start-up test on the credential: [process.exit(1)] before
    [app.listen] when [OPENAI_API_KEY] is undefined or empty. *)
Definition boot (key : option string) (startup : Z) : option World :=
  if falsy key then None else Some (init startup).

(** The three bodies of the [catch] block. *)
Definition KEY_INVALID : Response :=
  {| status := 500; body := ErrorBody "Clé API OpenAI invalide" None |}.

Definition UPSTREAM_LIMIT : Response :=
  {| status := 429;
     body := ErrorBody "Limite de l'API OpenAI atteinte, réessayez plus tard" None |}.

Definition INTERNAL_ERROR : Response :=
  {| status := 500; body := ErrorBody "Erreur interne du serveur" None |}.

(** The session ids handed out during a run, oldest first. *)
Definition created (evs : list Event) : list string :=
  omap (λ e, match e with NewUser uuid => Some uuid | _ => None end) evs.

(** The instant at which a handler calls [resetWeekly], for the two routes
    that do. *)
Definition checked_at (e : Event) : option Z :=
  match e with
  | GetStats now | ChatArrives _ now => Some now
  | _ => None
  end.

(** A successful chat response. *)
Definition is_chat_ok (r : Response) : bool :=
  match body r with ChatBody _ _ => true | _ => false end.

(** [owners !! r] is the session id for which array [r] was created; every
    session and every suspended handler holds an array created for its own
    id, and a suspended handler belongs to a session that exists. *)
Definition owned (owners : list string) (w : World) : Prop :=
  length owners = length (arrays (server w))
  ∧ (∀ userId r, userSessions (server w) !! userId = Some r →
                 owners !! r = Some userId)
  ∧ Forall (λ p, owners !! p_conversation p = Some (p_userId p)
                 ∧ is_Some (userSessions (server w) !! p_userId p))
           (inflight w).

(** The session whose stored history an event can change: the one that is
    (re)created, or the one whose suspended request receives a reply. *)
Definition touched (w : World) (e : Event) : option string :=
  match e with
  | NewUser uuid => Some uuid
  | ChatSettles i (Fulfilled _) => p_userId <$> inflight w !! i
  | _ => None
  end.

(** ** The browser client: [sendMessage] of [src/App.tsx]

    The component state is a record of the [useState] cells that
    [sendMessage] and the two [disabled] attributes read or write.  The
    handler is the one of the latest render, so it reads the current state;
    like the chat route it runs in two pieces, before and after
    [await fetch].  [content] and [remaining] are optional because the
    handler copies [data.response] and [data.promptsRemaining] as they come.
    [String.prototype.trim] is a parameter. *)
Definition entry (m : Message) : Role * string := (role m, content m).

Module App.

Record Message := mkMessage {
  role : Role;
  content : option string;
  timestamp : Z
}.

Record Stats := mkStats {
  promptsUsed : Z;
  maxPrompts : Z;
  remaining : option Z
}.

Record State := mkState {
  messages : list Message;
  inputMessage : string;
  isLoading : bool;
  userId : option string;
  stats : option Stats;
  error : option string
}.

(** How [await fetch(...)] followed by [await response.json()] ends: with a
    response and its parsed body, or by throwing an [Error] with a message
    ([None]: a thrown value that is no [Error]). *)
Inductive Fetched :=
| Received (r : Response)
| Rejected (message : option string).

(** [response.ok] *)
Definition ok (r : Response) : bool := (200 <=? status r) && (status r <=? 299).

(** The fields of the parsed body that [sendMessage] reads. *)
Definition data_code (b : Body) : option string :=
  match b with ErrorBody _ code => code | _ => None end.

Definition data_error (b : Body) : option string :=
  match b with ErrorBody e _ => Some e | _ => None end.

Definition data_response (b : Body) : option string :=
  match b with ChatBody r _ => Some r | _ => None end.

Definition data_promptsRemaining (b : Body) : option Z :=
  match b with ChatBody _ n => Some n | _ => None end.

Definition with_error (e : option string) (c : State) : State :=
  {| messages := messages c; inputMessage := inputMessage c;
     isLoading := isLoading c; userId := userId c; stats := stats c;
     error := e |}.

Definition with_messages (ms : list Message) (c : State) : State :=
  {| messages := ms; inputMessage := inputMessage c;
     isLoading := isLoading c; userId := userId c; stats := stats c;
     error := error c |}.

Definition with_stats (s : option Stats) (c : State) : State :=
  {| messages := messages c; inputMessage := inputMessage c;
     isLoading := isLoading c; userId := userId c; stats := s;
     error := error c |}.

(** The [finally] block: [setIsLoading(false)]. *)
Definition finally (c : State) : State :=
  {| messages := messages c; inputMessage := inputMessage c;
     isLoading := false; userId := userId c; stats := stats c;
     error := error c |}.

Definition data_history (b : Body) : option (list (Role * string)) :=
  match b with HistoryBody h => Some (entry <$> h) | _ => None end.

(** [loadUserHistory], from the answer of [GET history] on.  Every entry is
    copied and stamped with the clock read at its turn ([clock i] for entry
    [i]).  A failed fetch, an answer that is not ok and a body without
    [history] all end in the [catch] block, which only writes on the
    console. *)
Definition loadUserHistory (clock : nat → Z) (f : Fetched) (c : State) : State :=
  match f with
  | Rejected _ => c
  | Received r =>
    if negb (ok r) then c
    else
      match data_history (body r) with
      | None => c
      | Some history =>
        with_messages
          (imap (λ i msg, {| role := msg.1; content := Some msg.2;
                             timestamp := clock i |}) history) c
      end
  end.

(** The line feed, character 10. *)
Definition LF : Ascii.ascii :=
  Ascii.Ascii false true false true false false false false.

(** [content.split('\n')]: the pieces between line feeds; the empty string
    gives one empty piece.  Strings are sequences of bytes here, and the line
    feed is a byte that occurs in no other character of UTF-8. *)
Fixpoint split_lines (content : string) : list string :=
  match content with
  | EmptyString => [EmptyString]
  | String c rest =>
    if Ascii.eqb c LF then EmptyString :: split_lines rest
    else
      match split_lines rest with
      | line :: lines => String c line :: lines
      | [] => [String c EmptyString]
      end
  end.

(** What [formatMessage] puts on the page. *)
Inductive Node :=
| Text (line : string)
| Br.

(** [formatMessage]: one fragment per line, each line followed by a [<br />]
    except the last one ([false && <br />] renders nothing). *)
Definition formatMessage (content : string) : list (list Node) :=
  imap (λ index line,
          if (index <? length (split_lines content) - 1)%nat
          then [Text line; Br] else [Text line])
       (split_lines content).

(** The characters a reader of the page gets back from the nodes. *)
Definition shown (nodes : list Node) : string :=
  foldr (λ n acc, match n with
                  | Text line => line +:+ acc
                  | Br => String LF acc
                  end) EmptyString nodes.

Section Client.

Variable trim : string → string.

(** [disabled] of the send button and of the input field. *)
Definition send_disabled (c : State) : bool :=
  falsy (Some (trim (inputMessage c))) || isLoading c || negb (falsy (error c)).

Definition input_disabled (c : State) : bool :=
  isLoading c || negb (falsy (error c)).

(** [sendMessage] up to [await fetch]: [None] when it returns at once,
    otherwise the new state and the body that is posted. *)
Definition sendMessage_begin (now : Z) (c : State) : option (State * ChatRequest) :=
  if falsy (Some (trim (inputMessage c))) || falsy (userId c) || isLoading c
  then None
  else
    let userMessage := {| role := user; content := Some (trim (inputMessage c));
                          timestamp := now |} in
    Some ({| messages := messages c ++ [userMessage];
             inputMessage := "";
             isLoading := true;
             userId := userId c;
             stats := stats c;
             error := None |},
          {| req_userId := userId c; req_message := content userMessage |}).

(** [sendMessage] from the answer on; [called_in] is the state in which the
    handler was called, whose [stats] it still holds. *)
Definition sendMessage_end (called_in : State) (now : Z) (f : Fetched)
    (c : State) : State :=
  match f with
  | Rejected message =>
    finally (with_error (Some (default "Erreur de connexion" message)) c)
  | Received r =>
    if negb (ok r) then
      if decide (data_code (body r) = Some "WEEKLY_LIMIT_EXCEEDED")
      then finally (with_error (data_error (body r)) c)
      else
        finally (with_error
          (Some (if falsy (data_error (body r))
                 then "Erreur lors de l'envoi du message"
                 else default "" (data_error (body r)))) c)
    else
      let assistantMessage := {| role := assistant;
                                 content := data_response (body r);
                                 timestamp := now |} in
      let c := with_messages (messages c ++ [assistantMessage]) c in
      finally
        match stats called_in with
        | Some s =>
          with_stats (Some {| promptsUsed := promptsUsed s + 1;
                              maxPrompts := maxPrompts s;
                              remaining := data_promptsRemaining (body r) |}) c
        | None => c
        end
  end.

End Client.

End App.

(** * Properties *)

(** ** The reset check *)

Lemma WEEK_MS_pos : 0 < WEEK_MS.
Proof. reflexivity. Qed.

Lemma resetWeekly_elapsed now pc :
  WEEK_MS <= now - weekStart pc →
  resetWeekly now pc = {| count := 0; weekStart := now |}.
Proof.
  intros Hel. unfold resetWeekly.
  assert (1 <= (now - weekStart pc) / WEEK_MS) as Hq.
  { apply Z.div_le_lower_bound; [apply WEEK_MS_pos | lia]. }
  apply Z.leb_le in Hq. by rewrite Hq.
Qed.

Lemma resetWeekly_within now pc :
  now - weekStart pc < WEEK_MS → resetWeekly now pc = pc.
Proof.
  intros Hel. unfold resetWeekly.
  assert ((now - weekStart pc) / WEEK_MS < 1) as Hq.
  { apply Z.div_lt_upper_bound; [apply WEEK_MS_pos | lia]. }
  apply Z.leb_gt in Hq. by rewrite Hq.
Qed.

Lemma resetWeekly_cases now pc :
  resetWeekly now pc =
  if WEEK_MS <=? now - weekStart pc
  then {| count := 0; weekStart := now |} else pc.
Proof.
  destruct (Z.leb_spec WEEK_MS (now - weekStart pc)).
  - by apply resetWeekly_elapsed.
  - by apply resetWeekly_within.
Qed.

Lemma resetWeekly_twice now pc :
  resetWeekly now (resetWeekly now pc) = resetWeekly now pc.
Proof.
  rewrite (resetWeekly_cases now pc).
  destruct (Z.leb_spec WEEK_MS (now - weekStart pc)).
  - apply resetWeekly_within. simpl. pose proof WEEK_MS_pos. lia.
  - by apply resetWeekly_within.
Qed.

(** When the count is positive after the check, the check did nothing. *)
Lemma resetWeekly_positive now pc :
  0 < count (resetWeekly now pc) → resetWeekly now pc = pc.
Proof.
  rewrite resetWeekly_cases.
  destruct (WEEK_MS <=? now - weekStart pc); [simpl; lia | done].
Qed.

(** The configured quota is never zero: a parsed [0] falls back to 4000. *)
Lemma load_max_prompts_nonzero parsed : load_max_prompts parsed ≠ 0.
Proof.
  destruct parsed as [n |]; cbn; [| done].
  destruct (Z.eqb_spec n 0); [done | done].
Qed.

(** C7: the reset check fires exactly when at least seven days have elapsed
    since [weekStart]; it then sets the count to 0 and [weekStart] to the
    current time, so that [/api/stats] reports the whole quota as remaining
    (for a quota that is not negative); when less than seven days have
    elapsed it changes nothing, and repeating the check, at the same instant
    or later within the window, changes nothing more. *)
Theorem C7_reset_check (MAX now : Z) (st : Server) :
  let pc := promptCounter st in
  resetWeekly now pc =
    (if WEEK_MS <=? now - weekStart pc
     then {| count := 0; weekStart := now |} else pc)
  ∧ (WEEK_MS <= now - weekStart pc → 0 <= MAX →
     get_stats MAX now st =
       (with_counter {| count := 0; weekStart := now |} st,
        {| status := 200; body := StatsBody 0 MAX MAX now |}))
  ∧ (now - weekStart pc < WEEK_MS → resetWeekly now pc = pc)
  ∧ resetWeekly now (resetWeekly now pc) = resetWeekly now pc
  ∧ (∀ later, later - weekStart (resetWeekly now pc) < WEEK_MS →
       resetWeekly later (resetWeekly now pc) = resetWeekly now pc).
Proof.
  intros pc. split_and!.
  - apply resetWeekly_cases.
  - intros Hel Hmax. unfold get_stats. fold pc.
    rewrite (resetWeekly_elapsed _ _ Hel). simpl.
    by rewrite Z.sub_0_r, Z.max_r.
  - apply resetWeekly_within.
  - apply resetWeekly_twice.
  - intros later. apply resetWeekly_within.
Qed.

Lemma C7_reset_check_witness :
  resetWeekly WEEK_MS {| count := 5; weekStart := 0 |}
    = {| count := 0; weekStart := WEEK_MS |}
  ∧ (get_stats 4000 WEEK_MS
       {| userSessions := ∅; arrays := [];
          promptCounter := {| count := 5; weekStart := 0 |};
          console := [] |}).2
    = {| status := 200; body := StatsBody 0 4000 4000 WEEK_MS |}
  ∧ resetWeekly (WEEK_MS - 1) {| count := 5; weekStart := 0 |}
    = {| count := 5; weekStart := 0 |}.
Proof.
  pose proof (C7_reset_check 4000 WEEK_MS
    {| userSessions := ∅; arrays := [];
       promptCounter := {| count := 5; weekStart := 0 |};
       console := [] |}) as (Hcases & Hstats & _).
  pose proof (C7_reset_check 4000 (WEEK_MS - 1)
    {| userSessions := ∅; arrays := [];
       promptCounter := {| count := 5; weekStart := 0 |};
       console := [] |}) as (_ & _ & Hkeep & _).
  split_and!.
  - exact Hcases.
  - rewrite Hstats; [reflexivity | vm_compute; discriminate | lia].
  - apply Hkeep. vm_compute. reflexivity.
Defined.

(** ** The chat handler up to its [await] *)

Lemma falsy_Some s : s ≠ "" → falsy (Some s) = false.
Proof. intros Hs. simpl. by apply String.eqb_neq. Qed.

Lemma chat_begin_valid MAX KEY userId message now st conversation :
  userId ≠ "" → message ≠ "" →
  userSessions st !! userId = Some conversation →
  chat_begin MAX KEY (chat userId message) now st =
    let st1 := with_counter (resetWeekly now (promptCounter st)) st in
    if MAX <=? count (resetWeekly now (promptCounter st))
    then (st1, inl (LIMIT_EXCEEDED MAX))
    else (st1, inr ({| p_userId := userId; p_message := message;
                       p_conversation := conversation |},
                    {| url := "https://api.openai.com/v1/chat/completions";
                       model := "gpt-4o-mini";
                       messages := SYSTEM_PROMPT :: deref st conversation
                                     ++ [ {| role := user; content := message |} ];
                       max_tokens := 1000;
                       authorization := "Bearer " +:+ KEY |})).
Proof.
  intros Hu Hm Hs. unfold chat_begin, chat.
  cbn [req_userId req_message].
  rewrite (falsy_Some _ Hu), (falsy_Some _ Hm). cbn [orb default from_option id].
  rewrite Hs. reflexivity.
Qed.

(** C6: a chat request for an existing session that finds, after the lazy
    reset, the count at [MAX_PROMPTS_PER_WEEK] or above is answered 429 with
    the code WEEKLY_LIMIT_EXCEEDED; nothing is sent to the inference
    service, no handler is left suspended, sessions and histories are as
    they were, and the counter is the one the reset check left (the very
    counter of before the request when the quota is positive). *)
Theorem C6_quota_exceeded (MAX : Z) (KEY : string) (w : World)
    (userId message : string) (now : Z) (conversation : ref) :
  userId ≠ "" → message ≠ "" →
  userSessions (server w) !! userId = Some conversation →
  MAX <= count (resetWeekly now (promptCounter (server w))) →
  let w' := (step MAX KEY w (ChatArrives (chat userId message) now)).1 in
  let out := (step MAX KEY w (ChatArrives (chat userId message) now)).2 in
  (∃ text, out = [Respond {| status := 429;
                             body := ErrorBody text (Some "WEEKLY_LIMIT_EXCEEDED") |}])
  ∧ calls out = []
  ∧ inflight w' = inflight w
  ∧ userSessions (server w') = userSessions (server w)
  ∧ arrays (server w') = arrays (server w)
  ∧ get_history userId (server w') = get_history userId (server w)
  ∧ promptCounter (server w') = resetWeekly now (promptCounter (server w))
  ∧ (0 < MAX → promptCounter (server w') = promptCounter (server w)).
Proof.
  intros Hu Hm Hs Hfull. cbn [step].
  rewrite (chat_begin_valid _ _ _ _ _ _ _ Hu Hm Hs). cbn zeta.
  apply Z.leb_le in Hfull as Hfullb. rewrite Hfullb. cbn.
  split_and!; try done.
  - by eexists.
  - intros Hpos. apply resetWeekly_positive. lia.
Qed.

(** C8: a chat request that reaches the inference call sends exactly the
    fixed system instruction, then the stored history of the session as
    [GET history] would return it, then the new user message. *)
Theorem C8_context_assembly (MAX : Z) (KEY : string) (w : World)
    (userId message : string) (now : Z) (conversation : ref) :
  userId ≠ "" → message ≠ "" →
  userSessions (server w) !! userId = Some conversation →
  count (resetWeekly now (promptCounter (server w))) < MAX →
  ∃ o history,
    (step MAX KEY w (ChatArrives (chat userId message) now)).2 = [Call o]
    ∧ get_history userId (server w)
        = {| status := 200; body := HistoryBody history |}
    ∧ messages o = [SYSTEM_PROMPT] ++ history
                     ++ [ {| role := user; content := message |} ].
Proof.
  intros Hu Hm Hs Hroom. cbn [step].
  rewrite (chat_begin_valid _ _ _ _ _ _ _ Hu Hm Hs). cbn zeta.
  apply Z.leb_gt in Hroom. rewrite Hroom. cbn [fst snd].
  eexists _, _. split_and!; [reflexivity | | reflexivity].
  unfold get_history. by rewrite Hs.
Qed.

Lemma C6_quota_exceeded_witness :
  calls (step 1 "sk-test" (one_exchange 1)
           (ChatArrives (chat "u" "Encore") 2)).2 = []
  ∧ promptCounter (server (step 1 "sk-test" (one_exchange 1)
                             (ChatArrives (chat "u" "Encore") 2)).1)
    = {| count := 1; weekStart := 0 |}.
Proof.
  destruct (C6_quota_exceeded 1 "sk-test" (one_exchange 1) "u" "Encore" 2 0%nat)
    as (_ & Hcalls & _ & _ & _ & _ & _ & Hpc).
  - discriminate.
  - discriminate.
  - vm_compute. reflexivity.
  - vm_compute. discriminate.
  - split; [exact Hcalls | apply Hpc; lia].
Defined.

Lemma C8_context_assembly_witness :
  ∃ o, (step 4000 "sk-test" (one_exchange 4000)
          (ChatArrives (chat "u" "Et toi ?") 2)).2 = [Call o]
       ∧ messages o = [ SYSTEM_PROMPT;
                        {| role := user; content := "Bonjour" |};
                        {| role := assistant; content := "Salut" |};
                        {| role := user; content := "Et toi ?" |} ].
Proof.
  destruct (C8_context_assembly 4000 "sk-test" (one_exchange 4000)
              "u" "Et toi ?" 2 0%nat) as (o & history & Hout & Hhist & Hmsgs).
  - discriminate.
  - discriminate.
  - vm_compute. reflexivity.
  - vm_compute. reflexivity.
  - exists o. split; [exact Hout |].
    vm_compute in Hhist. injection Hhist as <-. exact Hmsgs.
Defined.

(** ** The chat handler after its [await] *)

Lemma step_settle MAX KEY w i p outcome :
  inflight w !! i = Some p →
  step MAX KEY w (ChatSettles i outcome) =
    ({| server := (chat_resume MAX p outcome (server w)).1;
        inflight := delete i (inflight w) |},
     [Respond (chat_resume MAX p outcome (server w)).2]).
Proof.
  intros Hp. cbn [step]. rewrite Hp.
  by destruct (chat_resume MAX p outcome (server w)).
Qed.

(** C1 as the design document states it fails: with the quota far from
    exhausted, a valid request whose inference call fails with a 500 leaves
    the count at 0, not at 1, and the count is still 0 while the call is
    out. *)
Lemma C1_counterexample :
  let arrival := step 4000 "sk-test" (one_session 4000)
                   (ChatArrives (chat "u" "Bonjour") 1) in
  let failure := step 4000 "sk-test" arrival.1
                   (ChatSettles 0 (http_error 500 "oops" "Request failed")) in
  count (promptCounter (server (one_session 4000))) = 0
  ∧ length (calls arrival.2) = 1%nat
  ∧ count (promptCounter (server arrival.1)) = 0
  ∧ visible failure.2
    = [ {| status := 500; body := ErrorBody "Erreur interne du serveur" None |} ]
  ∧ count (promptCounter (server failure.1))
    ≠ count (promptCounter (server (one_session 4000))) + 1.
Proof. vm_compute. split_and!; (reflexivity || discriminate). Qed.

(** ** Upstream failures *)

(** C3, as the code has it: when the inference service answers 429, the
    suspended handler answers its own client 429, with a fixed message and no
    machine-readable code, writes one line on the console and leaves
    sessions, histories and the counter as they were. *)
Theorem C3_upstream_429_relayed (MAX : Z) (p : Pending) (st : Server)
    (data message : string) :
  (chat_resume MAX p (http_error 429 data message) st).2
    = {| status := 429;
         body := ErrorBody "Limite de l'API OpenAI atteinte, réessayez plus tard"
                           None |}
  ∧ (chat_resume MAX p (http_error 429 data message) st).1
    = with_console (console st ++ [if String.eqb data "" then message else data]) st.
Proof. done. Qed.

(** C3 as the design document states it fails: the client of a request
    whose inference call was answered 429 receives a 429, which is no 5xx. *)
Lemma C3_counterexample :
  let out := (run 4000 "sk-test" (one_session 4000)
                [ChatArrives (chat "u" "Bonjour") 1;
                 ChatSettles 0 (http_error 429 "rate limit reached"
                                  "Request failed with status code 429")]).2 in
  ∃ r, visible out = [r] ∧ status r = 429 ∧ ¬ (500 <= status r <= 599).
Proof. eexists. vm_compute. split_and!; [reflexivity | reflexivity | ]. intros [H _]. by apply H. Qed.

(** The server part of a step does not depend on the credential, nor on the
    payload of a 401; the responses do not either. *)
Lemma step_same_but_console MAX k1 k2 w1 w2 e1 e2 :
  same_but_console w1 w2 → same_but_401_payload e1 e2 →
  same_but_console (step MAX k1 w1 e1).1 (step MAX k2 w2 e2).1
  ∧ visible (step MAX k1 w1 e1).2 = visible (step MAX k2 w2 e2).2.
Proof.
  destruct w1 as [[s1 a1 c1 l1] f1], w2 as [[s2 a2 c2 l2] f2].
  intros (Hs & Ha & Hc & Hf) He. cbn in Hs, Ha, Hc, Hf. subst s2 a2 c2 f2.
  destruct He as [e | i d1 m1 d2 m2].
  - destruct e as [uuid | userId | now | now | req now | i outcome]; cbn [step].
    + done.
    + done.
    + done.
    + done.
    + unfold chat_begin. cbn -[resetWeekly].
      repeat case_match; simplify_eq; done.
    + cbn. destruct (f1 !! i) as [p|]; [| done].
      destruct outcome; done.
  - cbn. destruct (f1 !! i) as [p|]; done.
Qed.

Lemma run_same_but_console MAX k1 k2 evs1 evs2 :
  Forall2 same_but_401_payload evs1 evs2 →
  ∀ w1 w2, same_but_console w1 w2 →
  same_but_console (run MAX k1 w1 evs1).1 (run MAX k2 w2 evs2).1
  ∧ visible (run MAX k1 w1 evs1).2 = visible (run MAX k2 w2 evs2).2.
Proof.
  induction 1 as [| e1 e2 evs1 evs2 He _ IH]; intros w1 w2 Hw; [done |].
  cbn [run].
  destruct (step_same_but_console MAX k1 k2 w1 w2 e1 e2 Hw He) as [Hw' Hout].
  destruct (step MAX k1 w1 e1) as [w1' out1], (step MAX k2 w2 e2) as [w2' out2].
  destruct (IH w1' w2' Hw') as [Hw'' Hout'].
  destruct (run MAX k1 w1' evs1) as [w1'' out1'].
  destruct (run MAX k2 w2' evs2) as [w2'' out2'].
  split; [done |]. cbn in *. unfold visible in *.
  rewrite !omap_app. by f_equal.
Qed.

(** C9: when the inference service answers 401, the client of the suspended
    request receives status 500 with one fixed message; and two runs of the
    gateway from the same state that differ only in the credential and in
    the payloads (and messages) of the upstream 401 answers show their
    clients the same responses. *)
Theorem C9_auth_failure_opaque (MAX : Z) (k1 k2 : string) (w : World)
    (evs1 evs2 : list Event) :
  Forall2 same_but_401_payload evs1 evs2 →
  visible (run MAX k1 w evs1).2 = visible (run MAX k2 w evs2).2
  ∧ (∀ i p data message, inflight w !! i = Some p →
       (step MAX k1 w (ChatSettles i (http_error 401 data message))).2
       = [Respond {| status := 500;
                     body := ErrorBody "Clé API OpenAI invalide" None |}]).
Proof.
  intros Hevs. split.
  - by apply run_same_but_console.
  - intros i p data message Hp. by rewrite (step_settle _ _ _ _ _ _ Hp).
Qed.

Lemma C9_auth_failure_opaque_witness :
  visible (run 4000 "sk-one" (one_session 4000)
             [ChatArrives (chat "u" "Bonjour") 1;
              ChatSettles 0 (http_error 401 "Incorrect API key provided: sk-one"
                               "Request failed with status code 401")]).2
  = visible (run 4000 "sk-two" (one_session 4000)
               [ChatArrives (chat "u" "Bonjour") 1;
                ChatSettles 0 (http_error 401 "invalid_api_key" "401")]).2.
Proof.
  apply (C9_auth_failure_opaque 4000 "sk-one" "sk-two" (one_session 4000)).
  repeat constructor.
Defined.

(** ** Two defects *)

(** When every chat request is settled before the next one arrives, the
    count stays within the quota: the overshoot below needs two requests in
    flight at once. *)
Lemma one_at_a_time_within_quota MAX KEY w req now outcome :
  inflight w = [] →
  0 <= count (promptCounter (server w)) <= Z.max 0 MAX →
  let w' := (run MAX KEY w [ChatArrives req now; ChatSettles 0 outcome]).1 in
  inflight w' = []
  ∧ 0 <= count (promptCounter (server w')) <= Z.max 0 MAX.
Proof.
  destruct w as [st fl]. cbn [inflight server]. intros -> Hc.
  assert (0 <= count (resetWeekly now (promptCounter st)) <= Z.max 0 MAX) as Hr.
  { rewrite resetWeekly_cases. case_match; cbn; lia. }
  cbn [run step inflight server]. unfold chat_begin.
  destruct (falsy (req_userId req) || falsy (req_message req)); [done |].
  destruct (userSessions st !! default "" (req_userId req)) as [r |]; [| done].
  cbn [promptCounter with_counter].
  destruct (Z.leb_spec MAX (count (resetWeekly now (promptCounter st)))); [done |].
  destruct outcome as [aiResponse | error]; cbn; [| done].
  split; [done | lia].
Qed.

(** C2 on the code: with a quota of one prompt, two chat requests that both
    arrive before either inference call has settled both pass the quota
    check, both are answered 200, and the count ends at 2. *)
Theorem C2_check_then_increment_race :
  let r := run 1 "sk-test" (one_session 1)
             [ChatArrives (chat "u" "Bonjour") 1;
              ChatArrives (chat "u" "Encore") 2;
              ChatSettles 0 (Fulfilled "Salut");
              ChatSettles 0 (Fulfilled "Oui ?")] in
  length (calls r.2) = 2%nat
  ∧ visible r.2 = [ {| status := 200; body := ChatBody "Salut" 0 |};
                    {| status := 200; body := ChatBody "Oui ?" 0 |} ]
  ∧ count (promptCounter (server r.1)) = 2
  ∧ ¬ count (promptCounter (server r.1)) <= 1.
Proof. vm_compute. split_and!; try reflexivity. intros H. by apply H. Qed.

(** C4 on the code: one exchange was billed at time 1; a week later
    [/api/health] still reports one prompt used, and leaves the counter as
    it is, where [/api/stats] at the same instant reports none. *)
Theorem C4_health_reads_without_reset :
  let w := one_exchange 4000 in
  let now := 1 + WEEK_MS in
  visible (step 4000 "sk-test" w (GetHealth now)).2
    = [ {| status := 200; body := HealthBody "OK" now 1 4000 |} ]
  ∧ (step 4000 "sk-test" w (GetHealth now)).1 = w
  ∧ visible (step 4000 "sk-test" w (GetStats now)).2
    = [ {| status := 200; body := StatsBody 0 4000 4000 now |} ].
Proof. vm_compute. done. Qed.

(** ** Histories *)

Section Histories.

Local Open Scope nat_scope.

Lemma exchanges_snoc pairs u a :
  exchanges (pairs ++ [(u, a)])
  = exchanges pairs ++ [ {| role := user; content := u |};
                         {| role := assistant; content := a |} ].
Proof. unfold exchanges. by rewrite bind_app. Qed.

Lemma length_exchanges pairs : length (exchanges pairs) = length pairs + length pairs.
Proof.
  induction pairs as [| ua pairs IH]; [done |].
  change (exchanges (ua :: pairs)) with
    ({| role := user; content := ua.1 |}
       :: {| role := assistant; content := ua.2 |} :: exchanges pairs).
  cbn [length]. lia.
Qed.

Lemma drop_exchanges k pairs :
  drop (k + k) (exchanges pairs) = exchanges (drop k pairs).
Proof.
  revert pairs. induction k as [| k IH]; intros pairs; [done |].
  destruct pairs as [| ua pairs]; [done |].
  replace (S k + S k) with (S (S (k + k))) by lia.
  apply IH.
Qed.

Lemma exchanges_roles pairs i m :
  exchanges pairs !! i = Some m →
  role m = if Nat.even i then user else assistant.
Proof.
  revert i. induction pairs as [| ua pairs IH]; intros i Hm; [done |].
  destruct i as [| [| i]].
  - by simplify_eq/=.
  - by simplify_eq/=.
  - apply (IH i Hm).
Qed.

Lemma trim_drop h : trim h = drop (length h - MAX_HISTORY) h.
Proof.
  unfold trim. destruct (Nat.ltb_spec MAX_HISTORY (length h)); [done |].
  by replace (length h - MAX_HISTORY) with 0 by lia.
Qed.

Lemma length_trim h : length (trim h) = length h `min` MAX_HISTORY.
Proof. rewrite trim_drop, length_drop. lia. Qed.

(** Trimming a history of whole exchanges removes whole exchanges. *)
Lemma trim_exchanges pairs :
  trim (exchanges pairs) = exchanges (drop (length pairs - 10) pairs).
Proof.
  rewrite trim_drop, length_exchanges, <-drop_exchanges.
  f_equal. unfold MAX_HISTORY. lia.
Qed.

Lemma deref_exchanges w r :
  histories_ok w → ∃ pairs, deref (server w) r = exchanges pairs.
Proof.
  intros Hw. unfold deref.
  destruct (arrays (server w) !! r) as [h |] eqn:Hr.
  - by destruct (Forall_lookup_1 _ _ _ _ Hw Hr) as [_ ?].
  - by exists [].
Qed.

Lemma chat_begin_server MAX KEY req now st :
  userSessions (chat_begin MAX KEY req now st).1 = userSessions st
  ∧ arrays (chat_begin MAX KEY req now st).1 = arrays st.
Proof. unfold chat_begin. by repeat case_match. Qed.

Lemma chat_begin_pending MAX KEY req now st st' p o :
  chat_begin MAX KEY req now st = (st', inr (p, o)) →
  userSessions st !! p_userId p = Some (p_conversation p).
Proof. unfold chat_begin. intros Hb. by repeat case_match; simplify_eq/=. Qed.

Lemma step_histories_ok MAX KEY w e :
  histories_ok w → histories_ok (step MAX KEY w e).1.
Proof.
  unfold histories_ok. intros Hw.
  destruct e as [uuid | userId | now | now | req now | i outcome]; cbn [step]; try done.
  - cbn. apply Forall_app_2; [done |]. apply Forall_singleton.
    split; [cbn; lia | by exists []].
  - pose proof (chat_begin_server MAX KEY req now (server w)) as [_ Ha].
    destruct (chat_begin MAX KEY req now (server w)) as [st [r | [p o]]];
      cbn in *; by rewrite Ha.
  - destruct (inflight w !! i) as [p |]; [| done].
    destruct outcome as [aiResponse | error]; [| done].
    cbn. apply Forall_insert; [done |]. split.
    + rewrite length_trim. lia.
    + destruct (deref_exchanges w (p_conversation p) Hw) as [pairs ->].
      rewrite <-exchanges_snoc, trim_exchanges. by eexists.
Qed.

Lemma step_store_ok MAX KEY w e : store_ok w → store_ok (step MAX KEY w e).1.
Proof.
  intros [Hs Hf].
  destruct e as [uuid | userId | now | now | req now | i outcome]; cbn [step]; try done.
  - split; cbn.
    + intros userId r. rewrite length_app, lookup_insert. cbn.
      case_decide; [intros; simplify_eq; lia |].
      intros Hr. apply Hs in Hr. lia.
    + eapply Forall_impl; [exact Hf |]. cbn. intros p. rewrite length_app. lia.
  - pose proof (chat_begin_server MAX KEY req now (server w)) as [Hu Ha].
    pose proof (chat_begin_pending MAX KEY req now (server w)) as Hp.
    destruct (chat_begin MAX KEY req now (server w)) as [st [r | [p o]]];
      cbn in Hu, Ha; (split; cbn; rewrite ?Hu, ?Ha; [done |]); [done |].
    apply Forall_app_2; [done |]. apply Forall_singleton.
    eapply Hs, Hp. done.
  - destruct (inflight w !! i) as [p |] eqn:Hi; [| done].
    pose proof (Forall_lookup_1 _ _ _ _ Hf Hi) as Hp. cbn in Hp.
    destruct outcome as [aiResponse | error]; cbn.
    + split; cbn.
      * intros userId r. rewrite length_insert, lookup_insert.
        case_decide; [by intros; simplify_eq | apply Hs].
      * rewrite length_insert. by apply Forall_delete.
    + split; cbn; [done | by apply Forall_delete].
Qed.

Lemma run_ok MAX KEY evs w :
  store_ok w → histories_ok w →
  store_ok (run MAX KEY w evs).1 ∧ histories_ok (run MAX KEY w evs).1.
Proof.
  revert w. induction evs as [| e evs IH]; intros w Hs Hh; [done |].
  cbn [run].
  pose proof (step_store_ok MAX KEY w e Hs) as Hs'.
  pose proof (step_histories_ok MAX KEY w e Hh) as Hh'.
  destruct (step MAX KEY w e) as [w1 out1].
  specialize (IH w1 Hs' Hh').
  by destruct (run MAX KEY w1 evs) as [w2 out2].
Qed.

Lemma init_ok startup : store_ok (init startup) ∧ histories_ok (init startup).
Proof.
  split; [split |]; cbn.
  - intros userId r. by rewrite lookup_empty.
  - constructor.
  - constructor.
Qed.

Lemma reachable_ok MAX KEY startup evs :
  store_ok (run MAX KEY (init startup) evs).1
  ∧ histories_ok (run MAX KEY (init startup) evs).1.
Proof. destruct (init_ok startup). by apply run_ok. Qed.

(** C5: in every state the process can reach, the stored history of every
    session has at most [MAX_HISTORY] entries; and when a suspended chat
    request is resumed with a reply, the history of its session becomes the
    last [MAX_HISTORY] entries (all of them when there are fewer) of the old
    history followed by the new user/assistant pair, in the same order, so
    that it ends with that pair. *)
Theorem C5_history_bounded (MAX : Z) (KEY : string) (startup : Z)
    (evs : list Event) :
  let w := (run MAX KEY (init startup) evs).1 in
  (∀ userId r, userSessions (server w) !! userId = Some r →
     length (deref (server w) r) ≤ MAX_HISTORY)
  ∧ (∀ i p aiResponse, inflight w !! i = Some p →
       let w' := (step MAX KEY w (ChatSettles i (Fulfilled aiResponse))).1 in
       let pair := [ {| role := user; content := p_message p |};
                     {| role := assistant; content := aiResponse |} ] in
       let old := deref (server w) (p_conversation p) in
       let new := deref (server w') (p_conversation p) in
       userSessions (server w') !! p_userId p = Some (p_conversation p)
       ∧ new = drop (length (old ++ pair) - MAX_HISTORY) (old ++ pair)
       ∧ length new = (length old + 2) `min` MAX_HISTORY
       ∧ ∃ kept, new = kept ++ pair).
Proof.
  intros w. destruct (reachable_ok MAX KEY startup evs) as [[Hs Hf] Hh].
  fold w in Hs, Hf, Hh. split.
  - intros userId r _. unfold deref.
    destruct (arrays (server w) !! r) as [h |] eqn:Hr; [| cbn; lia].
    by destruct (Forall_lookup_1 _ _ _ _ Hh Hr) as [? _].
  - intros i p aiResponse Hi w' pair old new.
    pose proof (Forall_lookup_1 _ _ _ _ Hf Hi) as Hp. cbn in Hp.
    assert (new = trim (old ++ pair)) as Hnew.
    { subst new w'. rewrite (step_settle _ _ _ _ _ _ Hi). cbn.
      unfold deref at 1. cbn. by rewrite list_lookup_insert_eq. }
    assert (length old ≤ MAX_HISTORY) as Hold.
    { subst old. unfold deref.
      destruct (arrays (server w) !! p_conversation p) as [h |] eqn:Hr; [| cbn; lia].
      by destruct (Forall_lookup_1 _ _ _ _ Hh Hr) as [? _]. }
    split_and!.
    + subst w'. rewrite (step_settle _ _ _ _ _ _ Hi). cbn.
      by rewrite lookup_insert_eq.
    + by rewrite Hnew, trim_drop.
    + rewrite Hnew, length_trim, length_app. done.
    + rewrite Hnew, trim_drop, length_app, drop_app_le.
      * by eexists.
      * cbn. unfold MAX_HISTORY in *. lia.
Qed.

Lemma C5_history_bounded_witness :
  deref (server (step 4000 "sk-test"
                   (run 4000 "sk-test" (one_exchange 4000)
                      [ChatArrives (chat "u" "Et toi ?") 2]).1
                   (ChatSettles 0 (Fulfilled "Bien"))).1) 0
  = drop (4 - MAX_HISTORY)
      [ {| role := user; content := "Bonjour" |};
        {| role := assistant; content := "Salut" |};
        {| role := user; content := "Et toi ?" |};
        {| role := assistant; content := "Bien" |} ]
  ∧ length (deref (server (one_exchange 4000)) 0) ≤ MAX_HISTORY.
Proof.
  split.
  - pose proof (C5_history_bounded 4000 "sk-test" 0
      [NewUser "u"; ChatArrives (chat "u" "Bonjour") 1;
       ChatSettles 0 (Fulfilled "Salut"); ChatArrives (chat "u" "Et toi ?") 2])
      as [_ Hstep].
    destruct (Hstep 0 {| p_userId := "u"; p_message := "Et toi ?";
                         p_conversation := 0 |} "Bien")
      as (_ & Hnew & _); [vm_compute; reflexivity |].
    exact Hnew.
  - pose proof (C5_history_bounded 4000 "sk-test" 0
      [NewUser "u"; ChatArrives (chat "u" "Bonjour") 1;
       ChatSettles 0 (Fulfilled "Salut")]) as [Hbound _].
    apply (Hbound "u" 0). vm_compute. reflexivity.
Defined.

(** C10: in every state the process can reach, the stored history of every
    session has even length, with role "user" at the even indices and role
    "assistant" at the odd ones; and trimming such a history extended by one
    user/assistant pair removes an even number of entries from the front,
    leaving exactly 20 whenever it removes any. *)
Theorem C10_histories_alternate (MAX : Z) (KEY : string) (startup : Z)
    (evs : list Event) (userId : string) (r : ref) :
  let w := (run MAX KEY (init startup) evs).1 in
  userSessions (server w) !! userId = Some r →
  ∃ h, arrays (server w) !! r = Some h
     ∧ get_history userId (server w)
         = {| status := 200%Z; body := HistoryBody h |}
     ∧ Nat.Even (length h)
     ∧ (∀ i m, h !! i = Some m →
          role m = if Nat.even i then user else assistant)
     ∧ (∀ u a, let extended := h ++ [ {| role := user; content := u |};
                                      {| role := assistant; content := a |} ] in
          ∃ k, trim extended = drop (2 * k) extended
             ∧ (k ≠ 0 → length (trim extended) = 20)).
Proof.
  intros w Hr. destruct (reachable_ok MAX KEY startup evs) as [[Hs _] Hh].
  fold w in Hs, Hh.
  destruct (lookup_lt_is_Some_2 _ _ (Hs _ _ Hr)) as [h Hh'].
  destruct (Forall_lookup_1 _ _ _ _ Hh Hh') as [Hlen [pairs ->]].
  exists (exchanges pairs). split_and!.
  - done.
  - unfold get_history. rewrite Hr. unfold deref. by rewrite Hh'.
  - exists (length pairs). rewrite length_exchanges. lia.
  - apply exchanges_roles.
  - intros u a extended. exists (length (pairs ++ [(u, a)]) - 10).
    subst extended. rewrite <-exchanges_snoc. split.
    + rewrite trim_exchanges, <-drop_exchanges. f_equal. lia.
    + rewrite length_trim, length_exchanges. unfold MAX_HISTORY. lia.
Qed.

Lemma C10_histories_alternate_witness :
  ∃ h, get_history "u" (server (one_exchange 4000))
         = {| status := 200%Z; body := HistoryBody h |}
     ∧ Nat.Even (length h)
     ∧ ∀ i m, h !! i = Some m → role m = if Nat.even i then user else assistant.
Proof.
  destruct (C10_histories_alternate 4000 "sk-test" 0
      [NewUser "u"; ChatArrives (chat "u" "Bonjour") 1;
       ChatSettles 0 (Fulfilled "Salut")] "u" 0)
    as (h & _ & Hget & Heven & Hroles & _).
  - vm_compute. reflexivity.
  - exists h. split_and!; [exact Hget | exact Heven | exact Hroles].
Defined.

End Histories.

(** * Further properties of the handlers *)

(** ** Sessions *)

Lemma deref_snoc_empty st (r : nat) :
  default [] ((arrays st ++ [[]]) !! r) = deref st r.
Proof.
  unfold deref. destruct (decide (r < length (arrays st))%nat) as [Hlt | Hge].
  - by rewrite lookup_app_l.
  - rewrite lookup_app_r by lia. rewrite (lookup_ge_None_2 (arrays st)) by lia.
    by destruct (r - length (arrays st))%nat as [| [| n]].
Qed.

(** X1: creating a session answers 200 with the new id; the history of that
    id is then empty, whatever it was before; the history of every other id,
    the counter and the suspended requests are as they were. *)
Theorem X1_new_session (MAX : Z) (KEY : string) (w : World) (uuid : string) :
  let w' := (step MAX KEY w (NewUser uuid)).1 in
  (step MAX KEY w (NewUser uuid)).2
    = [Respond {| status := 200;
                  body := NewUserBody uuid "Nouvelle session créée avec succès" |}]
  ∧ get_history uuid (server w') = {| status := 200; body := HistoryBody [] |}
  ∧ (∀ other, other ≠ uuid →
       get_history other (server w') = get_history other (server w))
  ∧ promptCounter (server w') = promptCounter (server w)
  ∧ inflight w' = inflight w.
Proof.
  cbn. split_and!; try done.
  - unfold get_history, deref. cbn. rewrite lookup_insert_eq.
    by rewrite lookup_app_r, Nat.sub_diag by lia.
  - intros other Hne. unfold get_history. cbn.
    rewrite lookup_insert_ne by done.
    destruct (userSessions (server w) !! other) as [r |]; [| done].
    unfold deref at 1. cbn. by rewrite deref_snoc_empty.
Qed.

Lemma X1_new_session_witness :
  get_history "v" (server (step 4000 "sk-test" (one_exchange 4000) (NewUser "v")).1)
    = {| status := 200; body := HistoryBody [] |}
  ∧ get_history "u" (server (step 4000 "sk-test" (one_exchange 4000) (NewUser "v")).1)
    = get_history "u" (server (one_exchange 4000)).
Proof.
  destruct (X1_new_session 4000 "sk-test" (one_exchange 4000) "v")
    as (_ & Hnew & Hother & _).
  split; [exact Hnew | apply Hother; discriminate].
Defined.

(** ** Requests refused before the quota check *)

(** X2: a chat request with a missing or empty field is answered 400, also
    when its session is unknown; a complete request for an unknown session is
    answered 404.  Either way nothing is sent to the inference service and
    the process is exactly as before: in particular the reset check is not
    run, even when the week has elapsed. *)
Theorem X2_refused_untouched (MAX : Z) (KEY : string) (w : World)
    (req : ChatRequest) (now : Z) :
  (falsy (req_userId req) || falsy (req_message req) = true →
     step MAX KEY w (ChatArrives req now) = (w, [Respond BAD_REQUEST]))
  ∧ (falsy (req_userId req) || falsy (req_message req) = false →
     userSessions (server w) !! default "" (req_userId req) = None →
     step MAX KEY w (ChatArrives req now) = (w, [Respond NOT_FOUND])).
Proof.
  destruct w as [st fl]. split.
  - intros Hf. cbn [step server inflight]. unfold chat_begin. by rewrite Hf.
  - intros Hf Hs. cbn [step server inflight] in *. unfold chat_begin.
    rewrite Hf. cbn zeta. by rewrite Hs.
Qed.

Lemma X2_refused_untouched_witness :
  step 4000 "sk-test" (one_exchange 4000)
       (ChatArrives {| req_userId := Some "u"; req_message := None |} (2 * WEEK_MS))
    = (one_exchange 4000, [Respond BAD_REQUEST])
  ∧ step 4000 "sk-test" (one_exchange 4000)
         (ChatArrives (chat "v" "Bonjour") (2 * WEEK_MS))
    = (one_exchange 4000, [Respond NOT_FOUND]).
Proof.
  split.
  - apply (X2_refused_untouched 4000 "sk-test" (one_exchange 4000)). reflexivity.
  - apply (X2_refused_untouched 4000 "sk-test" (one_exchange 4000)).
    + reflexivity.
    + vm_compute. reflexivity.
Defined.

(** ** Failed inference calls *)

(** X3: whatever the awaited call throws, the suspended request is answered
    with one of three fixed bodies, chosen by the upstream status alone: 500
    and the invalid-key message for 401, 429 for 429, 500 and the generic
    message otherwise (also when there is no upstream answer at all).  The
    request is retired, and sessions, histories and the counter are as they
    were. *)
Theorem X3_failure_responses (MAX : Z) (KEY : string) (w : World) (i : nat)
    (p : Pending) (error : JsError) :
  inflight w !! i = Some p →
  let w' := (step MAX KEY w (ChatSettles i (Thrown error))).1 in
  (step MAX KEY w (ChatSettles i (Thrown error))).2
    = [Respond match err_response error with
               | Some (401, _) => KEY_INVALID
               | Some (429, _) => UPSTREAM_LIMIT
               | _ => INTERNAL_ERROR
               end]
  ∧ inflight w' = delete i (inflight w)
  ∧ userSessions (server w') = userSessions (server w)
  ∧ arrays (server w') = arrays (server w)
  ∧ promptCounter (server w') = promptCounter (server w).
Proof.
  intros Hp. cbn zeta. rewrite (step_settle _ _ _ _ _ _ Hp). cbn.
  split_and!; try done.
  destruct (err_response error) as [[code data] |]; [| done].
  destruct (Z.eqb_spec code 401) as [-> | H401]; [done |].
  destruct (Z.eqb_spec code 429) as [-> | H429]; [done |].
  do 2 f_equal.
  destruct code as [| c | c]; try done.
  repeat (destruct c as [c | c |]; try done).
Qed.

Lemma X3_failure_responses_witness :
  (step 4000 "sk-test"
     (step 4000 "sk-test" (one_session 4000) (ChatArrives (chat "u" "Bonjour") 1)).1
     (ChatSettles 0 (Thrown {| err_response := None;
                               err_message := "socket hang up" |}))).2
  = [Respond INTERNAL_ERROR].
Proof.
  apply (X3_failure_responses 4000 "sk-test"
           (step 4000 "sk-test" (one_session 4000)
                 (ChatArrives (chat "u" "Bonjour") 1)).1 0
           {| p_userId := "u"; p_message := "Bonjour"; p_conversation := 0 |}).
  vm_compute. reflexivity.
Defined.

(** ** The shape of a step *)

(** The four ways in which the chat handler reaches its first response or
    its [await]. *)
Lemma chat_begin_cases MAX KEY req now st :
  let pc := resetWeekly now (promptCounter st) in
  chat_begin MAX KEY req now st = (st, inl BAD_REQUEST)
  ∨ chat_begin MAX KEY req now st = (st, inl NOT_FOUND)
  ∨ (MAX <= count pc
     ∧ chat_begin MAX KEY req now st = (with_counter pc st, inl (LIMIT_EXCEEDED MAX)))
  ∨ (count pc < MAX
     ∧ ∃ p o, chat_begin MAX KEY req now st = (with_counter pc st, inr (p, o))
            ∧ userSessions st !! p_userId p = Some (p_conversation p)
            ∧ p_message p ≠ ""
            ∧ url o = "https://api.openai.com/v1/chat/completions"
            ∧ model o = "gpt-4o-mini"
            ∧ max_tokens o = 1000
            ∧ authorization o = "Bearer " +:+ KEY
            ∧ messages o = SYSTEM_PROMPT :: deref st (p_conversation p)
                             ++ [ {| role := user; content := p_message p |} ]).
Proof.
  intros pc. unfold chat_begin.
  destruct (falsy (req_userId req)) eqn:Hu; [by left |].
  destruct (falsy (req_message req)) eqn:Hm; [by left |]. cbn [orb].
  destruct (userSessions st !! default "" (req_userId req)) as [r |] eqn:Hs;
    [| by right; left].
  cbn [promptCounter with_counter]. fold pc.
  destruct (Z.leb_spec MAX (count pc)); [by right; right; left |].
  right; right; right. split; [done |]. eexists _, _.
  split_and!; try done.
  cbn. destruct (req_message req) as [m |]; [| done].
  cbn in Hm |- *. by apply String.eqb_neq.
Qed.

Lemma step_arrival MAX KEY w req now :
  step MAX KEY w (ChatArrives req now) =
    match (chat_begin MAX KEY req now (server w)).2 with
    | inl r => ({| server := (chat_begin MAX KEY req now (server w)).1;
                   inflight := inflight w |}, [Respond r])
    | inr (p, o) => ({| server := (chat_begin MAX KEY req now (server w)).1;
                        inflight := inflight w ++ [p] |}, [Call o])
    end.
Proof.
  cbn [step]. by destruct (chat_begin MAX KEY req now (server w)) as [st [r | [p o]]].
Qed.

Lemma run_cons MAX KEY w e evs :
  run MAX KEY w (e :: evs) =
    ((run MAX KEY (step MAX KEY w e).1 evs).1,
     (step MAX KEY w e).2 ++ (run MAX KEY (step MAX KEY w e).1 evs).2).
Proof.
  cbn [run]. destruct (step MAX KEY w e) as [w1 out1]. cbn [fst snd].
  by destruct (run MAX KEY w1 evs) as [w2 out2].
Qed.

(** ** The window and the count *)

Lemma resetWeekly_window now pc :
  (resetWeekly now pc = pc
   ∨ (resetWeekly now pc = {| count := 0; weekStart := now |}
      ∧ weekStart pc + WEEK_MS <= now)).
Proof.
  rewrite resetWeekly_cases.
  destruct (Z.leb_spec WEEK_MS (now - weekStart pc)); [right | left]; [| done].
  split; [done | lia].
Qed.

Lemma step_window MAX KEY w e :
  let pc := promptCounter (server w) in
  let pc' := promptCounter (server (step MAX KEY w e).1) in
  (weekStart pc' = weekStart pc ∨ weekStart pc + WEEK_MS <= weekStart pc')
  ∧ (0 <= count pc → 0 <= count pc').
Proof.
  destruct e as [uuid | userId | now | now | req now | i outcome].
  - cbn. split; [by left | done].
  - cbn. split; [by left | done].
  - cbn -[resetWeekly].
    destruct (resetWeekly_window now (promptCounter (server w))) as [-> | [-> ?]];
      cbn; split; auto; lia.
  - cbn. split; [by left | done].
  - rewrite step_arrival. cbn zeta.
    destruct (chat_begin_cases MAX KEY req now (server w))
      as [-> | [-> | [[_ ->] | [_ (p & o & -> & _)]]]];
      cbn -[resetWeekly]; try (split; [by left | done]);
      destruct (resetWeekly_window now (promptCounter (server w))) as [-> | [-> ?]];
      cbn; split; auto; lia.
  - cbn [step]. destruct (inflight w !! i) as [p |]; [| cbn; split; [by left | done]].
    destruct outcome as [aiResponse | error]; cbn; (split; [by left | lia]).
Qed.

Lemma run_window MAX KEY evs w :
  0 <= count (promptCounter (server w)) →
  let pc := promptCounter (server w) in
  let pc' := promptCounter (server (run MAX KEY w evs).1) in
  0 <= count pc'
  ∧ (weekStart pc' = weekStart pc ∨ weekStart pc + WEEK_MS <= weekStart pc').
Proof.
  revert w. induction evs as [| e evs IH]; intros w Hc; [cbn; auto |].
  cbn zeta. rewrite run_cons. cbn [fst].
  destruct (step_window MAX KEY w e) as [Hw Hc'].
  destruct (IH _ (Hc' Hc)) as [Hc'' Hw'].
  split; [done |]. pose proof WEEK_MS_pos. lia.
Qed.

(** X4: in every state the process can reach, the count is not negative, and
    the window either is the one opened at start-up or was opened at least
    one week later: windows never move backwards nor overlap. *)
Theorem X4_window_moves_forward (MAX : Z) (KEY : string) (startup : Z)
    (evs : list Event) :
  let pc := promptCounter (server (run MAX KEY (init startup) evs).1) in
  0 <= count pc
  ∧ (weekStart pc = startup ∨ startup + WEEK_MS <= weekStart pc).
Proof. by apply (run_window MAX KEY evs (init startup)). Qed.

Lemma step_within_window MAX KEY w e :
  (∀ now, checked_at e = Some now →
          now - weekStart (promptCounter (server w)) < WEEK_MS) →
  promptCounter (server (step MAX KEY w e).1) =
    {| count := count (promptCounter (server w))
                + Z.of_nat (length (filter (λ r, is_chat_ok r)
                                      (visible (step MAX KEY w e).2)));
       weekStart := weekStart (promptCounter (server w)) |}.
Proof.
  intros Hnow.
  assert (∀ pc : PromptCounter,
            pc = {| count := count pc + Z.of_nat 0; weekStart := weekStart pc |})
    as Hsame by (intros [c t]; cbn; f_equal; lia).
  destruct e as [uuid | userId | now | now | req now | i outcome].
  - apply Hsame.
  - cbn. unfold get_history.
    destruct (userSessions (server w) !! userId); apply Hsame.
  - cbn -[resetWeekly]. rewrite resetWeekly_within by (by apply Hnow). apply Hsame.
  - apply Hsame.
  - rewrite step_arrival.
    destruct (chat_begin_cases MAX KEY req now (server w))
      as [-> | [-> | [[_ ->] | [_ (p & o & -> & _)]]]];
      cbn -[resetWeekly]; try apply Hsame;
      rewrite resetWeekly_within by (by apply Hnow); apply Hsame.
  - cbn [step]. destruct (inflight w !! i) as [p |]; [| apply Hsame].
    destruct outcome as [aiResponse | error]; cbn; [done |].
    destruct (err_response error) as [[code data] |];
      [destruct (code =? 401); [| destruct (code =? 429)] |]; apply Hsame.
Qed.

Lemma run_within_window MAX KEY evs w :
  Forall (λ e, ∀ now, checked_at e = Some now →
                      now - weekStart (promptCounter (server w)) < WEEK_MS) evs →
  promptCounter (server (run MAX KEY w evs).1) =
    {| count := count (promptCounter (server w))
                + Z.of_nat (length (filter (λ r, is_chat_ok r)
                                      (visible (run MAX KEY w evs).2)));
       weekStart := weekStart (promptCounter (server w)) |}.
Proof.
  revert w. induction evs as [| e evs IH]; intros w Hevs.
  - destruct w as [[? ? [c t] ?] ?]. cbn. f_equal. lia.
  - apply Forall_cons in Hevs as [He Hevs].
    pose proof (step_within_window MAX KEY w e He) as Hstep.
    rewrite run_cons. cbn [fst snd].
    rewrite IH; rewrite Hstep; cbn [count weekStart]; [| done].
    unfold visible. rewrite omap_app, filter_app, length_app. f_equal. lia.
Qed.

(** X5: as long as no reset check is run a week or more after the window
    opened, the window stays as it is and the count grows by exactly the
    number of chat requests answered 200: refused and failed requests,
    session creations and the read-only routes are never billed. *)
Theorem X5_count_is_successes (MAX : Z) (KEY : string) (w : World)
    (evs : list Event) :
  Forall (λ e, ∀ now, checked_at e = Some now →
                      now - weekStart (promptCounter (server w)) < WEEK_MS) evs →
  promptCounter (server (run MAX KEY w evs).1) =
    {| count := count (promptCounter (server w))
                + Z.of_nat (length (filter (λ r, is_chat_ok r)
                                      (visible (run MAX KEY w evs).2)));
       weekStart := weekStart (promptCounter (server w)) |}.
Proof. apply run_within_window. Qed.

Lemma X5_count_is_successes_witness :
  count (promptCounter (server
    (run 4000 "sk-test" (one_session 4000)
       [ChatArrives (chat "u" "Bonjour") 1; ChatSettles 0 (Fulfilled "Salut");
        ChatArrives (chat "v" "Bonjour") 2; GetStats 3;
        ChatArrives (chat "u" "Encore") 4;
        ChatSettles 0 (http_error 500 "oops" "Request failed")]).1)) = 1.
Proof.
  rewrite (X5_count_is_successes 4000 "sk-test" (one_session 4000)).
  - vm_compute. reflexivity.
  - repeat constructor; intros now [= <-]; vm_compute; reflexivity.
Defined.

(** ** Billing of a chat request *)

(** C1, as the code has it: a chat request that passes validation and the
    quota check leaves for the inference service with the counter not yet
    incremented (it is the counter left by the reset check); the counter is
    incremented, by one, only when a call succeeds.  A call that fails, in
    whatever way, is not billed: its settlement leaves the counter exactly
    as it was just before, whenever it comes; settled at once, it leaves the
    counter as it was when the call went out; and settled after any other
    events in which no reset fires, it leaves the counter of when the call
    went out plus one for each chat request answered 200 in between. *)
Theorem C1_charged_on_success (MAX : Z) (KEY : string) (w : World)
    (userId message : string) (now : Z) (conversation : ref) :
  userId ≠ "" → message ≠ "" →
  userSessions (server w) !! userId = Some conversation →
  count (resetWeekly now (promptCounter (server w))) < MAX →
  let w1 := (step MAX KEY w (ChatArrives (chat userId message) now)).1 in
  let i := length (inflight w) in
  calls (step MAX KEY w (ChatArrives (chat userId message) now)).2 ≠ []
  ∧ promptCounter (server w1) = resetWeekly now (promptCounter (server w))
  ∧ inflight w1 !! i = Some {| p_userId := userId; p_message := message;
                               p_conversation := conversation |}
  ∧ (∀ error,
       promptCounter (server (step MAX KEY w1 (ChatSettles i (Thrown error))).1)
       = promptCounter (server w1))
  ∧ (∀ aiResponse,
       promptCounter (server (step MAX KEY w1 (ChatSettles i (Fulfilled aiResponse))).1)
       = {| count := count (promptCounter (server w1)) + 1;
            weekStart := weekStart (promptCounter (server w1)) |})
  ∧ (∀ w2 j p error, inflight w2 !! j = Some p →
       promptCounter (server (step MAX KEY w2 (ChatSettles j (Thrown error))).1)
       = promptCounter (server w2))
  ∧ (∀ evs j p error,
       Forall (λ e, ∀ t, checked_at e = Some t →
                         t - weekStart (promptCounter (server w1)) < WEEK_MS) evs →
       inflight (run MAX KEY w1 evs).1 !! j = Some p →
       promptCounter
         (server (step MAX KEY (run MAX KEY w1 evs).1
                       (ChatSettles j (Thrown error))).1)
       = {| count := count (promptCounter (server w1))
                     + Z.of_nat (length (filter (λ r, is_chat_ok r)
                                           (visible (run MAX KEY w1 evs).2)));
            weekStart := weekStart (promptCounter (server w1)) |}).
Proof.
  intros Hu Hm Hs Hroom w1 i.
  assert (inflight w1 !! i = Some {| p_userId := userId; p_message := message;
                                     p_conversation := conversation |}
          ∧ calls (step MAX KEY w (ChatArrives (chat userId message) now)).2 ≠ []
          ∧ promptCounter (server w1) = resetWeekly now (promptCounter (server w)))
    as (Hp & Hcall & Hpc).
  { subst w1 i. cbn [step].
    rewrite (chat_begin_valid _ _ _ _ _ _ _ Hu Hm Hs). cbn zeta.
    apply Z.leb_gt in Hroom. rewrite Hroom. cbn.
    split_and!; [| done | done].
    rewrite lookup_app_r by lia. by rewrite Nat.sub_diag. }
  split_and!; try done.
  - intros error. by rewrite (step_settle _ _ _ _ _ _ Hp).
  - intros aiResponse. by rewrite (step_settle _ _ _ _ _ _ Hp).
  - intros w2 j p error Hj. by rewrite (step_settle _ _ _ _ _ _ Hj).
  - intros evs j p error Hevs Hj.
    rewrite (step_settle _ _ _ _ _ _ Hj). cbn [fst server chat_resume].
    change (promptCounter (chat_catch error (server (run MAX KEY w1 evs).1)).1)
      with (promptCounter (server (run MAX KEY w1 evs).1)).
    by apply run_within_window.
Qed.

Lemma C1_charged_on_success_witness :
  promptCounter (server
    (run 4000 "sk-test" (one_session 4000)
       [ChatArrives (chat "u" "Bonjour") 1;
        ChatSettles 0 (http_error 500 "oops" "Request failed")]).1)
  = {| count := 0; weekStart := 0 |}
  ∧ promptCounter (server
      (run 4000 "sk-test" (init 0)
         [NewUser "u"; NewUser "v";
          ChatArrives (chat "u" "Bonjour") 1;
          ChatArrives (chat "v" "Salut") 2;
          ChatSettles 1 (Fulfilled "Bonsoir");
          ChatSettles 0 (http_error 500 "oops" "Request failed")]).1)
    = {| count := 1; weekStart := 0 |}.
Proof.
  split.
  - destruct (C1_charged_on_success 4000 "sk-test" (one_session 4000)
                "u" "Bonjour" 1 0%nat) as (_ & Hsent & _ & Hfail & _).
    + discriminate.
    + discriminate.
    + vm_compute. reflexivity.
    + vm_compute. reflexivity.
    + etransitivity; [| exact Hsent].
      etransitivity; [| apply (Hfail {| err_response := Some (500, "oops");
                                        err_message := "Request failed" |})].
      reflexivity.
  - destruct (C1_charged_on_success 4000 "sk-test"
                (run 4000 "sk-test" (init 0) [NewUser "u"; NewUser "v"]).1
                "u" "Bonjour" 1 0%nat) as (_ & _ & _ & _ & _ & _ & Hlater).
    + discriminate.
    + discriminate.
    + vm_compute. reflexivity.
    + vm_compute. reflexivity.
    + etransitivity;
        [| apply (Hlater [ChatArrives (chat "v" "Salut") 2;
                          ChatSettles 1 (Fulfilled "Bonsoir")] 0%nat
                         {| p_userId := "u"; p_message := "Bonjour";
                            p_conversation := 0 |}
                         {| err_response := Some (500, "oops");
                            err_message := "Request failed" |})].
      * vm_compute. reflexivity.
      * repeat constructor; intros t [= <-]; vm_compute; reflexivity.
      * vm_compute. reflexivity.
Defined.

(** ** The quota *)

(** X7: a negative [MAX_PROMPTS_PER_WEEK] in the environment is taken as it
    is (only [0] and an unreadable value fall back to 4000), and then every
    complete chat request for an existing session is refused with a 429
    carrying the code WEEKLY_LIMIT_EXCEEDED, in every state the process can
    reach, and nothing is ever sent to the inference service. *)
Theorem X7_negative_quota_refuses_all (n : Z) (KEY : string) (startup : Z)
    (evs : list Event) (userId message : string) (now : Z) (conversation : nat) :
  n < 0 →
  let MAX := load_max_prompts (Some n) in
  let w := (run MAX KEY (init startup) evs).1 in
  userId ≠ "" → message ≠ "" →
  userSessions (server w) !! userId = Some conversation →
  MAX = n
  ∧ (∃ text,
       (step MAX KEY w (ChatArrives (chat userId message) now)).2
       = [Respond {| status := 429;
                     body := ErrorBody text (Some "WEEKLY_LIMIT_EXCEEDED") |}])
  ∧ calls (run MAX KEY (init startup) evs).2 = [].
Proof.
  intros Hn MAX w Hu Hm Hs.
  assert (MAX = n) as HMAX.
  { subst MAX. cbn. destruct (Z.eqb_spec n 0); [lia | done]. }
  split; [done |]. split.
  - pose proof (run_window MAX KEY evs (init startup)) as [Hc _]; [done |].
    fold w in Hc.
    assert (0 <= count (resetWeekly now (promptCounter (server w)))) as Hr.
    { rewrite resetWeekly_cases. case_match; cbn; lia. }
    cbn [step]. rewrite (chat_begin_valid _ _ _ _ _ _ _ Hu Hm Hs). cbn zeta.
    replace (MAX <=? count (resetWeekly now (promptCounter (server w))))
      with true by (symmetry; apply Z.leb_le; lia).
    by eexists.
  - clear w Hs.
    assert (∀ w0, 0 <= count (promptCounter (server w0)) →
                  calls (run MAX KEY w0 evs).2 = []) as Hgen.
    { induction evs as [| e evs IH]; intros w0 Hc; [done |].
      rewrite run_cons. cbn [snd]. unfold calls in *. rewrite omap_app.
      destruct (step_window MAX KEY w0 e) as [_ Hc'].
      rewrite (IH _ (Hc' Hc)), app_nil_r.
      destruct e as [uuid | uid | t | t | req t | i outcome]; try done.
      - rewrite step_arrival.
        destruct (chat_begin_cases MAX KEY req t (server w0))
          as [-> | [-> | [[_ ->] | [Hlt _]]]]; try done.
        assert (0 <= count (resetWeekly t (promptCounter (server w0)))).
        { rewrite resetWeekly_cases. case_match; cbn; lia. }
        lia.
      - cbn [step]. destruct (inflight w0 !! i) as [p |]; [| done].
        by destruct (chat_resume MAX p outcome (server w0)). }
    by apply Hgen.
Qed.

Lemma X7_negative_quota_refuses_all_witness :
  ∃ text,
    (step (-5) "sk-test" (one_session (-5)) (ChatArrives (chat "u" "Bonjour") 1)).2
    = [Respond {| status := 429;
                  body := ErrorBody text (Some "WEEKLY_LIMIT_EXCEEDED") |}].
Proof.
  destruct (X7_negative_quota_refuses_all (-5) "sk-test" 0 [NewUser "u"]
              "u" "Bonjour" 1 0%nat) as (_ & Hout & _).
  - lia.
  - discriminate.
  - discriminate.
  - vm_compute. reflexivity.
  - exact Hout.
Defined.

(** X8: an exhausted quota reopens by itself: whatever the count, a complete
    chat request for an existing session that arrives a week or more after
    the window opened is sent to the inference service (for a positive
    quota), and it opens a new window, at its arrival time, with the count
    at zero. *)
Theorem X8_quota_reopens (MAX : Z) (KEY : string) (w : World)
    (userId message : string) (now : Z) (conversation : nat) :
  0 < MAX →
  userId ≠ "" → message ≠ "" →
  userSessions (server w) !! userId = Some conversation →
  WEEK_MS <= now - weekStart (promptCounter (server w)) →
  let s := step MAX KEY w (ChatArrives (chat userId message) now) in
  (∃ o, s.2 = [Call o])
  ∧ promptCounter (server s.1) = {| count := 0; weekStart := now |}
  ∧ inflight s.1 = inflight w ++ [ {| p_userId := userId; p_message := message;
                                      p_conversation := conversation |} ].
Proof.
  intros Hmax Hu Hm Hs Hweek. cbn [step].
  rewrite (chat_begin_valid _ _ _ _ _ _ _ Hu Hm Hs). cbn zeta.
  rewrite (resetWeekly_elapsed _ _ Hweek). cbn [count].
  replace (MAX <=? 0) with false by (symmetry; apply Z.leb_gt; lia).
  cbn. split_and!; [by eexists | done | done].
Qed.

Lemma X8_quota_reopens_witness :
  promptCounter (server (step 1 "sk-test" (one_exchange 1)
                           (ChatArrives (chat "u" "Encore") WEEK_MS)).1)
  = {| count := 0; weekStart := WEEK_MS |}.
Proof.
  destruct (X8_quota_reopens 1 "sk-test" (one_exchange 1) "u" "Encore"
              WEEK_MS 0%nat) as (_ & Hpc & _).
  - lia.
  - discriminate.
  - discriminate.
  - vm_compute. reflexivity.
  - vm_compute. discriminate.
  - exact Hpc.
Defined.

(** X9: the remaining quota told to a chat client is never negative, and it
    is the one [/api/stats] reports when asked next within the same window,
    together with a count one higher than before the reply. *)
Theorem X9_remaining_agrees_with_stats (MAX : Z) (KEY : string) (w : World)
    (i : nat) (p : Pending) (aiResponse : string) (now : Z) :
  inflight w !! i = Some p →
  now - weekStart (promptCounter (server w)) < WEEK_MS →
  let s := step MAX KEY w (ChatSettles i (Fulfilled aiResponse)) in
  ∃ remaining,
    s.2 = [Respond {| status := 200; body := ChatBody aiResponse remaining |}]
    ∧ 0 <= remaining
    ∧ (step MAX KEY s.1 (GetStats now)).2
      = [Respond {| status := 200;
                    body := StatsBody (count (promptCounter (server w)) + 1) MAX
                              remaining (weekStart (promptCounter (server w))) |}].
Proof.
  intros Hp Hnow. cbn zeta. rewrite (step_settle _ _ _ _ _ _ Hp).
  eexists. cbn -[resetWeekly]. split_and!; [reflexivity | lia |].
  by rewrite resetWeekly_within.
Qed.

Lemma X9_remaining_agrees_with_stats_witness :
  (step 4000 "sk-test" (one_exchange 4000) (GetStats 2)).2
  = [Respond {| status := 200; body := StatsBody 1 4000 3999 0 |}].
Proof.
  destruct (X9_remaining_agrees_with_stats 4000 "sk-test"
              (step 4000 "sk-test" (one_session 4000)
                    (ChatArrives (chat "u" "Bonjour") 1)).1
              0 {| p_userId := "u"; p_message := "Bonjour"; p_conversation := 0 |}
              "Salut" 2) as (remaining & Hout & _ & Hstats).
  - vm_compute. reflexivity.
  - vm_compute. reflexivity.
  - vm_compute in Hout. injection Hout as <-. exact Hstats.
Defined.

(** ** What the inference service receives *)

Lemma run_histories_ok MAX KEY evs w :
  histories_ok w → histories_ok (run MAX KEY w evs).1.
Proof.
  revert w. induction evs as [| e evs IH]; intros w Hw; [done |].
  rewrite run_cons. cbn [fst]. by apply IH, step_histories_ok.
Qed.

Lemma deref_bounded w (r : nat) :
  histories_ok w → (length (deref (server w) r) ≤ MAX_HISTORY)%nat.
Proof.
  intros Hw. unfold deref.
  destruct (arrays (server w) !! r) as [h |] eqn:Hr; [| cbn; lia].
  by destruct (Forall_lookup_1 _ _ _ _ Hw Hr) as [? _].
Qed.

(** X10: a process that got past the start-up test has a non-empty
    credential, and every call it ever sends goes to the one completions URL
    with the model gpt-4o-mini, at most 1000 tokens and that credential as
    bearer token; its messages are the system instruction, then at most ten
    whole user/assistant exchanges, then one non-empty user message: at most
    22 messages, ending with the user's. *)
Theorem X10_outgoing_calls (MAX : Z) (key : option string) (startup : Z)
    (w0 : World) (evs : list Event) :
  boot key startup = Some w0 →
  ∃ KEY, key = Some KEY ∧ KEY ≠ ""
  ∧ Forall (λ o,
        url o = "https://api.openai.com/v1/chat/completions"
        ∧ model o = "gpt-4o-mini"
        ∧ max_tokens o = 1000
        ∧ authorization o = "Bearer " +:+ KEY
        ∧ (length (messages o) ≤ 22)%nat
        ∧ ∃ pairs message,
            (length pairs ≤ 10)%nat ∧ message ≠ ""
            ∧ messages o = [SYSTEM_PROMPT] ++ exchanges pairs
                             ++ [ {| role := user; content := message |} ])
      (calls (run MAX KEY w0 evs).2).
Proof.
  unfold boot. destruct key as [KEY |]; [| done]. cbn.
  destruct (String.eqb_spec KEY "") as [| Hkey]; [done |].
  intros [= <-]. exists KEY. split_and!; [done | done |].
  assert (histories_ok (init startup)) as Hinit by apply init_ok.
  revert Hinit. generalize (init startup) as w.
  induction evs as [| e evs IH]; intros w Hw; [constructor |].
  rewrite run_cons. cbn [snd]. unfold calls in *. rewrite omap_app.
  apply Forall_app_2; [| by apply IH, step_histories_ok].
  destruct e as [uuid | uid | t | t | req t | i outcome]; try (by constructor).
  - rewrite step_arrival.
    destruct (chat_begin_cases MAX KEY req t (server w))
      as [-> | [-> | [[_ ->] | [_ (p & o & -> & _ & Hm & ? & ? & ? & ? & Hmsgs)]]]];
      try (by constructor).
    cbn. apply Forall_singleton.
    destruct (deref_exchanges w (p_conversation p) Hw) as [pairs Hpairs].
    pose proof (deref_bounded w (p_conversation p) Hw) as Hlen.
    rewrite Hpairs, length_exchanges in Hlen. unfold MAX_HISTORY in Hlen.
    split_and!; try done.
    + rewrite Hmsgs, Hpairs. cbn. rewrite length_app, length_exchanges. cbn. lia.
    + exists pairs, (p_message p). split_and!; [lia | done |].
      by rewrite Hmsgs, Hpairs.
  - cbn [step]. destruct (inflight w !! i) as [p |]; [| by constructor].
    destruct (chat_resume MAX p outcome (server w)). by constructor.
Qed.

Lemma X10_outgoing_calls_witness :
  Forall (λ o, authorization o = "Bearer sk-test" ∧ (length (messages o) ≤ 22)%nat)
    (calls (run 4000 "sk-test" (init 0)
              [NewUser "u"; ChatArrives (chat "u" "Bonjour") 1]).2).
Proof.
  destruct (X10_outgoing_calls 4000 (Some "sk-test") 0 (init 0)
              [NewUser "u"; ChatArrives (chat "u" "Bonjour") 1])
    as (KEY & Hkey & _ & Hcalls); [reflexivity |].
  injection Hkey as <-.
  eapply Forall_impl; [exact Hcalls |].
  intros o (_ & _ & _ & Hauth & Hlen & _). split; [exact Hauth | exact Hlen].
Defined.

(** ** Sessions over a run *)

Lemma step_owned MAX KEY owners w e :
  owned owners w → owned (owners ++ created [e]) (step MAX KEY w e).1.
Proof.
  intros (Hlen & Hs & Hf).
  assert (∀ w', arrays (server w') = arrays (server w) →
                userSessions (server w') = userSessions (server w) →
                inflight w' = inflight w → owned (owners ++ []) w') as Hsame.
  { intros w' Ha Hu Hi. rewrite app_nil_r. unfold owned.
    by rewrite Ha, Hu, Hi. }
  destruct e as [uuid | uid | t | t | req t | i outcome];
    try (by apply Hsame).
  - cbn. split_and!.
    + cbn. by rewrite !length_app, Hlen.
    + cbn. intros userId r. rewrite lookup_insert. case_decide as Heq.
      * intros [= <-]. subst. rewrite <-Hlen.
        by rewrite lookup_app_r, Nat.sub_diag by lia.
      * intros Hr. rewrite lookup_app_l; [by apply Hs |].
        by eapply lookup_lt_Some, Hs.
    + cbn. eapply Forall_impl; [exact Hf |]. cbn. intros p [Ho Hk]. split.
      * rewrite lookup_app_l; [done |]. by eapply lookup_lt_Some.
      * rewrite lookup_insert. by case_decide.
  - rewrite step_arrival.
    destruct (chat_begin_cases MAX KEY req t (server w))
      as [-> | [-> | [[_ ->] | [_ (p & o & -> & Hp & _)]]]];
      try (by apply Hsame).
    cbn. rewrite app_nil_r. split_and!; cbn; [done | done |].
    apply Forall_app_2; [done |]. apply Forall_singleton.
    split; [by apply Hs | by eexists].
  - cbn [step]. destruct (inflight w !! i) as [p |] eqn:Hi; [| by apply Hsame].
    destruct (Forall_lookup_1 _ _ _ _ Hf Hi) as [Ho Hk].
    destruct outcome as [aiResponse | error]; cbn; rewrite app_nil_r.
    + split_and!; cbn.
      * by rewrite length_insert.
      * intros userId r. rewrite lookup_insert. case_decide as Heq.
        -- intros [= <-]. by subst.
        -- apply Hs.
      * apply Forall_delete. eapply Forall_impl; [exact Hf |]. cbn.
        intros q [Hqo Hqk]. split; [done |].
        rewrite lookup_insert. by case_decide.
    + split_and!; cbn; [done | done | by apply Forall_delete].
Qed.

Lemma step_sessions MAX KEY owners w e userId :
  owned owners w →
  is_Some (userSessions (server (step MAX KEY w e).1) !! userId)
  ↔ is_Some (userSessions (server w) !! userId) ∨ userId ∈ created [e].
Proof.
  intros (_ & _ & Hf).
  assert (∀ P : Prop, P ↔ P ∨ userId ∈ @nil string) as Hnil.
  { intros P. split; [by left | intros [? | H]; [done | by apply elem_of_nil in H]]. }
  destruct e as [uuid | uid | t | t | req t | i outcome]; try exact (Hnil _).
  - cbn. rewrite lookup_insert_is_Some', list_elem_of_singleton.
    split; intros [? | ?]; auto.
  - pose proof (chat_begin_server MAX KEY req t (server w)) as [Hu _].
    rewrite step_arrival.
    destruct ((chat_begin MAX KEY req t (server w)).2) as [r | [p o]];
      cbn; rewrite Hu; exact (Hnil _).
  - cbn [step]. destruct (inflight w !! i) as [p |] eqn:Hi; [| exact (Hnil _)].
    destruct (Forall_lookup_1 _ _ _ _ Hf Hi) as [_ Hk].
    destruct outcome as [aiResponse | error]; cbn; [| exact (Hnil _)].
    rewrite lookup_insert_is_Some'. split.
    + intros [<- | ?]; by left.
    + intros [? | H]; [by right | by apply elem_of_nil in H].
Qed.

Lemma run_owned MAX KEY evs owners w :
  owned owners w →
  owned (owners ++ created evs) (run MAX KEY w evs).1
  ∧ ∀ userId,
      is_Some (userSessions (server (run MAX KEY w evs).1) !! userId)
      ↔ is_Some (userSessions (server w) !! userId) ∨ userId ∈ created evs.
Proof.
  revert owners w. induction evs as [| e evs IH]; intros owners w Hw.
  - cbn. rewrite app_nil_r. split; [done |]. intros userId.
    split; [by left | intros [? | H]; [done | by apply elem_of_nil in H]].
  - rewrite run_cons. cbn [fst].
    pose proof (step_owned MAX KEY owners w e Hw) as Hw'.
    destruct (IH _ _ Hw') as [Ho Hd].
    change (created (e :: evs)) with (omap (λ e, match e with NewUser uuid => Some uuid | _ => None end) ([e] ++ evs)).
    rewrite omap_app. fold (created [e]) (created evs).
    split; [by rewrite app_assoc |].
    intros userId. rewrite Hd, (step_sessions MAX KEY owners w e userId Hw).
    rewrite elem_of_app. tauto.
Qed.

Lemma init_owned startup : owned [] (init startup).
Proof.
  split_and!; cbn; [done | | constructor].
  intros userId r. by rewrite lookup_empty.
Qed.

Lemma reachable_owned MAX KEY startup evs :
  owned (created evs) (run MAX KEY (init startup) evs).1.
Proof. apply (run_owned MAX KEY evs [] (init startup)), init_owned. Qed.

(** X11: sessions never expire and are never invented: in every state the
    process can reach, [GET history] answers 200 for exactly the ids that
    [POST /api/user/new] has handed out, and 404, without a history, for
    every other id. *)
Theorem X11_sessions_are_the_created (MAX : Z) (KEY : string) (startup : Z)
    (evs : list Event) (userId : string) :
  let w := (run MAX KEY (init startup) evs).1 in
  (userId ∈ created evs →
     ∃ history, get_history userId (server w)
                = {| status := 200; body := HistoryBody history |})
  ∧ (userId ∉ created evs → get_history userId (server w) = NOT_FOUND).
Proof.
  intros w.
  destruct (run_owned MAX KEY evs [] (init startup) (init_owned startup))
    as [_ Hdom].
  specialize (Hdom userId). fold w in Hdom. unfold get_history.
  split; intros Hin.
  - destruct (proj2 Hdom (or_intror Hin)) as [r ->]. by eexists.
  - destruct (userSessions (server w) !! userId) as [r |] eqn:Hr; [| done].
    destruct (proj1 Hdom (mk_is_Some _ _ eq_refl)) as [[r' Hr'] | ?]; [| done].
    cbn in Hr'. by rewrite lookup_empty in Hr'.
Qed.

Lemma X11_sessions_are_the_created_witness :
  get_history "v" (server (one_exchange 4000)) = NOT_FOUND
  ∧ ∃ history, get_history "u" (server (one_exchange 4000))
               = {| status := 200; body := HistoryBody history |}.
Proof.
  pose proof (X11_sessions_are_the_created 4000 "sk-test" 0
    [NewUser "u"; ChatArrives (chat "u" "Bonjour") 1;
     ChatSettles 0 (Fulfilled "Salut")]) as H.
  split.
  - apply (H "v"). vm_compute. intros Hin.
    apply list_elem_of_singleton in Hin. discriminate.
  - apply (H "u"). vm_compute. apply list_elem_of_here.
Defined.

(** X12: sessions are isolated: in every state the process can reach, an
    event changes the history that [GET history] returns for a session only
    if it creates that session anew or is a successful reply to a request of
    that very session.  Requests, replies and failures of other sessions,
    and the statistics routes, leave it as it is. *)
Theorem X12_sessions_isolated (MAX : Z) (KEY : string) (startup : Z)
    (evs : list Event) (e : Event) (userId : string) :
  let w := (run MAX KEY (init startup) evs).1 in
  touched w e ≠ Some userId →
  get_history userId (server (step MAX KEY w e).1) = get_history userId (server w).
Proof.
  intros w Hne.
  destruct (reachable_owned MAX KEY startup evs) as (Hlen & Hs & Hf).
  fold w in Hlen, Hs, Hf.
  destruct e as [uuid | uid | t | t | req t | i outcome]; try done.
  - cbn in Hne. unfold get_history. cbn.
    rewrite lookup_insert_ne by congruence.
    destruct (userSessions (server w) !! userId) as [r |]; [| done].
    unfold deref at 1. cbn. by rewrite deref_snoc_empty.
  - pose proof (chat_begin_server MAX KEY req t (server w)) as [Hu Ha].
    rewrite step_arrival.
    destruct ((chat_begin MAX KEY req t (server w)).2) as [r | [p o]];
      cbn; unfold get_history, deref; by rewrite Hu, Ha.
  - cbn [step]. cbn in Hne.
    destruct (inflight w !! i) as [p |] eqn:Hi; [| done].
    destruct (Forall_lookup_1 _ _ _ _ Hf Hi) as [Ho _].
    destruct outcome as [aiResponse | error]; [| done].
    cbn in Hne |- *. unfold get_history. cbn.
    rewrite lookup_insert_ne by congruence.
    destruct (userSessions (server w) !! userId) as [r |] eqn:Hr; [| done].
    unfold deref. cbn. rewrite list_lookup_insert_ne; [done |].
    intros <-. apply Hs in Hr. congruence.
Qed.

Lemma X12_sessions_isolated_witness :
  get_history "u"
    (server (step 4000 "sk-test"
               (run 4000 "sk-test" (init 0)
                  [NewUser "u"; NewUser "v"; ChatArrives (chat "v" "Bonjour") 1]).1
               (ChatSettles 0 (Fulfilled "Salut"))).1)
  = {| status := 200; body := HistoryBody [] |}.
Proof.
  rewrite (X12_sessions_isolated 4000 "sk-test" 0
             [NewUser "u"; NewUser "v"; ChatArrives (chat "v" "Bonjour") 1]).
  - vm_compute. reflexivity.
  - vm_compute. discriminate.
Defined.

(** X13: the array a suspended request holds outlives its session entry: if
    the id of a suspended request is handed out again, the session shows an
    empty history, and the reply to the suspended request then puts the old
    array back under that id, with the old history and the new exchange. *)
Theorem X13_reply_restores_array (MAX : Z) (KEY : string) (startup : Z)
    (evs : list Event) (i : nat) (p : Pending) (aiResponse : string) :
  let w := (run MAX KEY (init startup) evs).1 in
  inflight w !! i = Some p →
  let w1 := (step MAX KEY w (NewUser (p_userId p))).1 in
  let w2 := (step MAX KEY w1 (ChatSettles i (Fulfilled aiResponse))).1 in
  get_history (p_userId p) (server w1)
    = {| status := 200; body := HistoryBody [] |}
  ∧ get_history (p_userId p) (server w2)
    = {| status := 200;
         body := HistoryBody
                   (trim (deref (server w) (p_conversation p)
                            ++ [ {| role := user; content := p_message p |};
                                 {| role := assistant; content := aiResponse |} ])) |}.
Proof.
  intros w Hi w1 w2.
  destruct (reachable_ok MAX KEY startup evs) as [[_ Hf] _]. fold w in Hf.
  pose proof (Forall_lookup_1 _ _ _ _ Hf Hi) as Hp. cbn in Hp.
  split.
  - subst w1. unfold get_history, deref. cbn. rewrite lookup_insert_eq.
    by rewrite lookup_app_r, Nat.sub_diag by lia.
  - subst w2. rewrite (step_settle _ _ _ _ p); [| done].
    unfold get_history. cbn. rewrite lookup_insert_eq.
    unfold deref at 1. cbn.
    rewrite list_lookup_insert_eq by (rewrite length_app; cbn; lia).
    cbn. do 4 f_equal. unfold deref at 1. cbn. apply deref_snoc_empty.
Qed.

Lemma X13_reply_restores_array_witness :
  get_history "u"
    (server (run 4000 "sk-test" (one_exchange 4000)
               [ChatArrives (chat "u" "Encore") 2; NewUser "u";
                ChatSettles 0 (Fulfilled "Oui")]).1)
  = {| status := 200;
       body := HistoryBody [ {| role := user; content := "Bonjour" |};
                             {| role := assistant; content := "Salut" |};
                             {| role := user; content := "Encore" |};
                             {| role := assistant; content := "Oui" |} ] |}.
Proof.
  destruct (X13_reply_restores_array 4000 "sk-test" 0
              [NewUser "u"; ChatArrives (chat "u" "Bonjour") 1;
               ChatSettles 0 (Fulfilled "Salut");
               ChatArrives (chat "u" "Encore") 2]
              0 {| p_userId := "u"; p_message := "Encore"; p_conversation := 0 |}
              "Oui") as [_ Hback].
  - vm_compute. reflexivity.
  - exact Hback.
Defined.

(** * The client against the gateway *)

(** X14: whatever [trim] does, a request that [sendMessage] posts carries the
    client's session id and the trimmed input, both non-empty, so the gateway
    never answers it 400; the user's message is appended to the list shown,
    the input is cleared, and until the answer is handled a second
    [sendMessage] posts nothing. *)
Theorem X14_client_requests_are_complete (trim : string → string) (now : Z)
    (c c' : App.State) (req : ChatRequest) :
  App.sendMessage_begin trim now c = Some (c', req) →
  (∃ userId, App.userId c = Some userId ∧ userId ≠ ""
     ∧ trim (App.inputMessage c) ≠ ""
     ∧ req = chat userId (trim (App.inputMessage c)))
  ∧ (∀ MAX KEY w t,
       (step MAX KEY w (ChatArrives req t)).2 ≠ [Respond BAD_REQUEST])
  ∧ App.messages c'
    = App.messages c ++ [ {| App.role := user;
                             App.content := Some (trim (App.inputMessage c));
                             App.timestamp := now |} ]
  ∧ App.inputMessage c' = ""
  ∧ (∀ later, App.sendMessage_begin trim later c' = None).
Proof.
  unfold App.sendMessage_begin.
  destruct (falsy (Some (trim (App.inputMessage c)))) eqn:Hm; [done |].
  destruct (falsy (App.userId c)) eqn:Hu; [done |].
  destruct (App.isLoading c); [done |]. cbn [orb].
  intros [= <- <-].
  destruct (App.userId c) as [userId |] eqn:Hid; [| done].
  cbn in Hu, Hm. apply String.eqb_neq in Hu, Hm.
  split_and!.
  - by exists userId.
  - intros MAX KEY w t. rewrite step_arrival.
    destruct (chat_begin_cases MAX KEY
                {| req_userId := Some userId;
                   req_message := Some (trim (App.inputMessage c)) |} t (server w))
      as [Hb | [-> | [[_ ->] | [_ (p & o & -> & _)]]]]; try done.
    exfalso. revert Hb. unfold chat_begin. cbn [req_userId req_message].
    rewrite (falsy_Some _ Hu), (falsy_Some _ Hm). cbn [orb].
    destruct (userSessions (server w) !! default "" (Some userId)); [| done].
    by case_match.
  - done.
  - done.
  - intros later. cbn. by rewrite orb_true_r.
Qed.

Lemma X14_client_requests_are_complete_witness :
  (step 4000 "sk-test" (one_session 4000) (ChatArrives (chat "u" "Bonjour") 1)).2
  ≠ [Respond BAD_REQUEST].
Proof.
  destruct (X14_client_requests_are_complete id 7
              {| App.messages := []; App.inputMessage := "Bonjour";
                 App.isLoading := false; App.userId := Some "u";
                 App.stats := None; App.error := None |}
              {| App.messages := [ {| App.role := user;
                                      App.content := Some "Bonjour";
                                      App.timestamp := 7 |} ];
                 App.inputMessage := ""; App.isLoading := true;
                 App.userId := Some "u"; App.stats := None;
                 App.error := None |}
              (chat "u" "Bonjour")) as (_ & Hvalid & _).
  - reflexivity.
  - apply Hvalid.
Defined.

Lemma LIMIT_EXCEEDED_text MAX :
  ∃ text, LIMIT_EXCEEDED MAX
          = {| status := 429;
               body := ErrorBody text (Some "WEEKLY_LIMIT_EXCEEDED") |}
          ∧ text ≠ "".
Proof. eexists. split; [reflexivity | done]. Qed.

(** Every response of the chat route is a 200 with a reply or one of six
    errors with a non-empty text. *)
Lemma chat_responses MAX KEY w e r :
  (∃ req now, e = ChatArrives req now) ∨ (∃ i outcome, e = ChatSettles i outcome) →
  (step MAX KEY w e).2 = [Respond r] →
  (∃ aiResponse n, r = {| status := 200; body := ChatBody aiResponse n |})
  ∨ (∃ code text tag, r = {| status := code; body := ErrorBody text tag |}
       ∧ text ≠ "" ∧ (code = 400 ∨ code = 404 ∨ code = 429 ∨ code = 500)).
Proof.
  intros [(req & now & ->) | (i & outcome & ->)].
  - rewrite step_arrival.
    destruct (chat_begin_cases MAX KEY req now (server w))
      as [-> | [-> | [[_ ->] | [_ (p & o & -> & _)]]]]; cbn; intros [= <-].
    + right. eexists _, _, _. split; [reflexivity |]. split; [done | auto].
    + right. eexists _, _, _. split; [reflexivity |]. split; [done | auto].
    + right. eexists _, _, _. split; [reflexivity |]. split; [done | auto].
  - cbn [step]. destruct (inflight w !! i) as [p |]; [| done].
    destruct outcome as [aiResponse | error]; cbn.
    + intros [= <-]. left. by eexists _, _.
    + intros [= <-]. right.
      destruct (err_response error) as [[code data] |];
        [destruct (code =? 401); [| destruct (code =? 429)] |];
        (eexists _, _, _; split; [reflexivity |]; split; [done | auto]).
Qed.

(** X15: how the client handles each answer of the chat route.  After a 200
    it appends the reply as an assistant message, sets no error, and moves
    its statistics by one prompt used, with the remaining count of the
    answer.  After any error answer, with or without the weekly-limit code,
    it shows exactly the text sent by the gateway, keeps the list of
    messages as it is, and both the input field and the send button are
    disabled whatever is typed.  In both cases it stops loading. *)
Theorem X15_client_handles_answers (trim : string → string) (MAX : Z)
    (KEY : string) (w : World) (e : Event) (r : Response)
    (called_in c : App.State) (now : Z) :
  (∃ req t, e = ChatArrives req t) ∨ (∃ i outcome, e = ChatSettles i outcome) →
  (step MAX KEY w e).2 = [Respond r] →
  let c' := App.sendMessage_end called_in now (App.Received r) c in
  App.isLoading c' = false
  ∧ ((∃ aiResponse n,
        r = {| status := 200; body := ChatBody aiResponse n |}
        ∧ App.messages c'
          = App.messages c ++ [ {| App.role := assistant;
                                   App.content := Some aiResponse;
                                   App.timestamp := now |} ]
        ∧ App.error c' = App.error c
        ∧ App.stats c'
          = match App.stats called_in with
            | Some s => Some {| App.promptsUsed := App.promptsUsed s + 1;
                                App.maxPrompts := App.maxPrompts s;
                                App.remaining := Some n |}
            | None => App.stats c
            end)
     ∨ (∃ text tag,
          body r = ErrorBody text tag
          ∧ App.error c' = Some text
          ∧ App.messages c' = App.messages c
          ∧ App.stats c' = App.stats c
          ∧ App.input_disabled c' = true
          ∧ App.send_disabled trim c' = true)).
Proof.
  intros He Hr c'.
  destruct (chat_responses MAX KEY w e r He Hr)
    as [(aiResponse & n & ->) | (code & text & tag & -> & Htext & Hcode)].
  - split; [subst c'; cbn; by destruct (App.stats called_in) |].
    left. exists aiResponse, n. subst c'. cbn.
    by destruct (App.stats called_in).
  - assert (falsy (Some text) = false) as Hf by (by apply falsy_Some).
    assert (App.ok {| status := code; body := ErrorBody text tag |} = false) as Hok.
    { unfold App.ok. cbn. destruct Hcode as [-> | [-> | [-> | ->]]]; done. }
    assert (c' = App.finally (App.with_error (Some text) c)) as ->.
    { subst c'. unfold App.sendMessage_end. rewrite Hok. cbn [negb body].
      cbn [App.data_error App.data_code]. rewrite Hf.
      by destruct (decide (tag = Some "WEEKLY_LIMIT_EXCEEDED")). }
    split; [done |]. right. exists text, tag. cbn.
    unfold App.send_disabled. cbn. cbn in Hf. rewrite Hf. cbn.
    split_and!; try done. by rewrite orb_true_r.
Qed.

Lemma X15_client_handles_answers_witness :
  App.error
    (App.sendMessage_end
       {| App.messages := []; App.inputMessage := "Encore";
          App.isLoading := false; App.userId := Some "u";
          App.stats := None; App.error := None |} 3
       (App.Received (LIMIT_EXCEEDED 1))
       {| App.messages := [ {| App.role := user; App.content := Some "Encore";
                               App.timestamp := 2 |} ];
          App.inputMessage := ""; App.isLoading := true;
          App.userId := Some "u"; App.stats := None; App.error := None |})
  = Some "Limite hebdomadaire de 1 prompts atteinte. Réessayez la semaine prochaine.".
Proof.
  destruct (X15_client_handles_answers id 1 "sk-test" (one_exchange 1)
              (ChatArrives (chat "u" "Encore") 2) (LIMIT_EXCEEDED 1)
              {| App.messages := []; App.inputMessage := "Encore";
                 App.isLoading := false; App.userId := Some "u";
                 App.stats := None; App.error := None |}
              {| App.messages := [ {| App.role := user; App.content := Some "Encore";
                                      App.timestamp := 2 |} ];
                 App.inputMessage := ""; App.isLoading := true;
                 App.userId := Some "u"; App.stats := None; App.error := None |}
              3)
    as [_ [(a & n & Hr & _) | (text & tag & Hbody & Herr & _)]].
  - left. by eexists _, _.
  - vm_compute. reflexivity.
  - discriminate Hr.
  - vm_compute in Hbody. injection Hbody as <- _. exact Herr.
Defined.

(** ** Rendering *)

Lemma split_lines_cons content : ∃ line lines, App.split_lines content = line :: lines.
Proof.
  destruct content as [| c rest]; cbn; [by eexists _, _ |].
  destruct (Ascii.eqb c App.LF); [by eexists _, _ |].
  destruct (App.split_lines rest); by eexists _, _.
Qed.

Lemma concat_split_lines content :
  String.concat (String App.LF EmptyString) (App.split_lines content) = content.
Proof.
  induction content as [| c rest IH]; [done |].
  cbn [App.split_lines].
  destruct (split_lines_cons rest) as (line & lines & Hrest).
  rewrite Hrest in IH |- *.
  rewrite <-IH.
  destruct (Ascii.eqb_spec c App.LF) as [-> | Hc];
    by destruct lines as [| line' lines].
Qed.

Lemma split_lines_no_LF content :
  Forall (λ line, ¬ In App.LF (String.list_ascii_of_string line)) (App.split_lines content).
Proof.
  induction content as [| c rest IH]; [apply Forall_singleton; cbn; tauto |].
  cbn [App.split_lines].
  destruct (Ascii.eqb_spec c App.LF) as [-> | Hc].
  { apply Forall_cons. split; [cbn; tauto | done]. }
  destruct (App.split_lines rest) as [| line lines].
  { apply Forall_singleton. cbn. intros [? | []]. congruence. }
  apply Forall_cons in IH as [Hline Hlines].
  apply Forall_cons. split; [| done]. cbn. intros [? | ?]; [congruence | done].
Qed.

Lemma append_empty_r (s : string) : s +:+ EmptyString = s.
Proof.
  induction s as [| c s IH]; [done |].
  change (String c (s +:+ EmptyString) = String c s). by rewrite IH.
Qed.

Lemma shown_fragments line lines :
  App.shown (concat (imap (λ index l,
                       if (index <? length (line :: lines) - 1)%nat
                       then [App.Text l; App.Br] else [App.Text l])
                    (line :: lines)))
  = String.concat (String App.LF EmptyString) (line :: lines).
Proof.
  revert line. induction lines as [| line' lines IH]; intros line.
  - cbn. apply append_empty_r.
  - rewrite imap_cons. cbn [concat]. cbn [Nat.ltb Nat.leb length Nat.sub].
    cbn [app App.shown foldr].
    rewrite (imap_ext _ (λ index l,
               if (index <? length (line' :: lines) - 1)%nat
               then [App.Text l; App.Br] else [App.Text l])).
    + fold (App.shown (concat (imap (λ index l,
               if (index <? length (line' :: lines) - 1)%nat
               then [App.Text l; App.Br] else [App.Text l]) (line' :: lines)))).
      by rewrite IH.
    + intros i x _. cbn. by rewrite Nat.sub_0_r.
Qed.

(** X16: [formatMessage] loses nothing: read back with a line feed for every
    [<br />], the nodes give the content again; no text node contains a line
    feed; and there is a fragment even for the empty content. *)
Theorem X16_formatMessage_round_trip (content : string) :
  App.shown (concat (App.formatMessage content)) = content
  ∧ Forall (λ fragment,
        ∃ line, (fragment = [App.Text line] ∨ fragment = [App.Text line; App.Br])
                ∧ ¬ In App.LF (String.list_ascii_of_string line))
      (App.formatMessage content)
  ∧ App.formatMessage content ≠ [].
Proof.
  unfold App.formatMessage.
  destruct (split_lines_cons content) as (line & lines & Hsplit).
  pose proof (concat_split_lines content) as Hjoin.
  pose proof (split_lines_no_LF content) as Hfree.
  rewrite Hsplit in Hjoin, Hfree |- *.
  split_and!.
  - by rewrite shown_fragments.
  - apply Forall_lookup. intros i fragment Hi.
    apply list_lookup_imap_Some in Hi as (l & Hl & ->).
    exists l. split; [case_match; auto |].
    by apply (Forall_lookup_1 _ _ _ _ Hfree Hl).
  - by rewrite imap_cons.
Qed.

(** ** Loading the history *)

(** X17: what [loadUserHistory] makes of the gateway's answer, in every state
    the process can reach.  For an id that was handed out, the list shown
    becomes the stored history, entry by entry with the same role and text,
    at most 20 entries, each stamped with the clock.  For any other id the
    answer is the 404 and the client state is left exactly as it was: no
    error is shown. *)
Theorem X17_loadUserHistory_mirrors (MAX : Z) (KEY : string) (startup : Z)
    (evs : list Event) (userId : string) (clock : nat → Z) (c : App.State) :
  let w := (run MAX KEY (init startup) evs).1 in
  let c' := App.loadUserHistory clock
              (App.Received (get_history userId (server w))) c in
  (userId ∈ created evs →
     ∃ history,
       get_history userId (server w)
         = {| status := 200; body := HistoryBody history |}
       ∧ (length history ≤ MAX_HISTORY)%nat
       ∧ App.messages c'
         = imap (λ i m, {| App.role := role m; App.content := Some (content m);
                           App.timestamp := clock i |}) history
       ∧ App.error c' = App.error c)
  ∧ (userId ∉ created evs → c' = c).
Proof.
  intros w c'.
  destruct (run_owned MAX KEY evs [] (init startup) (init_owned startup))
    as [_ Hdom].
  specialize (Hdom userId). fold w in Hdom.
  destruct (reachable_ok MAX KEY startup evs) as [_ Hh]. fold w in Hh.
  split; intros Hin.
  - destruct (proj2 Hdom (or_intror Hin)) as [r Hr].
    exists (deref (server w) r). subst c'. unfold get_history. rewrite Hr.
    split_and!; [done | by apply deref_bounded | | done].
    cbn. by rewrite imap_fmap.
  - subst c'. unfold get_history.
    destruct (userSessions (server w) !! userId) as [r |] eqn:Hr; [| done].
    destruct (proj1 Hdom (mk_is_Some _ _ eq_refl)) as [[r' Hr'] | ?]; [| done].
    cbn in Hr'. by rewrite lookup_empty in Hr'.
Qed.

Lemma X17_loadUserHistory_mirrors_witness :
  App.messages
    (App.loadUserHistory (λ i, 10 + Z.of_nat i)
       (App.Received (get_history "u" (server (one_exchange 4000))))
       {| App.messages := []; App.inputMessage := ""; App.isLoading := false;
          App.userId := Some "u"; App.stats := None; App.error := None |})
  = [ {| App.role := user; App.content := Some "Bonjour"; App.timestamp := 10 |};
      {| App.role := assistant; App.content := Some "Salut"; App.timestamp := 11 |} ].
Proof.
  destruct (X17_loadUserHistory_mirrors 4000 "sk-test" 0
              [NewUser "u"; ChatArrives (chat "u" "Bonjour") 1;
               ChatSettles 0 (Fulfilled "Salut")] "u" (λ i, 10 + Z.of_nat i)
              {| App.messages := []; App.inputMessage := "";
                 App.isLoading := false; App.userId := Some "u";
                 App.stats := None; App.error := None |})
    as [Hknown _].
  destruct Hknown as (history & Hget & _ & Hmsgs & _).
  - vm_compute. apply list_elem_of_here.
  - vm_compute in Hget. injection Hget as <-. exact Hmsgs.
Defined.
